(** * Verification of the image-description backend (app.py)

    The repository is one Flask module: the helper [analizar_imagen] and
    the handler [analizar] of [POST /analizar].  This development embeds
    both, together with the parts of the Python runtime they exercise
    (exceptions and [except Exception], [str.split], list indexing, dict
    lookup, [base64.b64decode]), and proves the properties stated about
    the request/response cycle. *)

From Stdlib Require Import ZArith String Ascii List Lia HexString.
From Stdlib.Strings Require Import Byte.
From stdpp Require Import base strings gmap list pretty.

Local Open Scope string_scope.
Local Open Scope Z_scope.

(** ** Python values, exceptions and outcomes *)

(** The exception classes the handler can meet.  [KeyboardInterrupt],
    [SystemExit], [GeneratorExit] and [CancelledError] derive from
    [BaseException] only; every other class derives from [Exception]. *)
Inductive exc_type : Type :=
  | IndexError
  | KeyError
  | TypeError
  | AttributeError
  | ValueError
  | binascii_Error
  | UnidentifiedImageError
  | HTTPException
  | OtherException (name : string)
  | KeyboardInterrupt
  | SystemExit
  | GeneratorExit
  | CancelledError.

(** An exception instance: its class and the text [str(e)] gives. *)
Record exception : Type := mkExc { exc_class : exc_type; exc_str : string }.

(** [isinstance(e, Exception)], the test behind [except Exception]. *)
Definition isinstance_Exception (e : exception) : bool :=
  match exc_class e with
  | KeyboardInterrupt | SystemExit | GeneratorExit | CancelledError => false
  | _ => true
  end.

(** The outcome of evaluating a Python expression or call. *)
Inductive outcome (A : Type) : Type :=
  | Ret (a : A)
  | Raise (e : exception).
Arguments Ret {A} a.
Arguments Raise {A} e.

Definition bind {A B : Type} (c : outcome A) (k : A -> outcome B) : outcome B :=
  match c with
  | Ret a => k a
  | Raise e => Raise e
  end.

Notation "'let*' x ':=' c 'in' k" := (bind c (fun x => k))
  (at level 10, x name, c at level 100, k at level 200).

(** Python [bytes]. *)
Definition bytes : Type := list byte.

(** A Python [str] is represented by its UTF-8 encoding: a character is
    ASCII exactly when its single byte is below 128, and the byte of
    [','] occurs in the encoding only where the string has a comma. *)
Definition ord (c : ascii) : Z := Z.of_N (N_of_ascii c).

(** ** The standard library's [base64.b64decode]

    [b64decode(s)] with the default [validate=False] encodes a [str]
    argument to ASCII and hands it to [binascii.a2b_base64] in its
    non-strict mode.  The loop below is that C function (CPython 3.11,
    whose message texts are used throughout): characters outside the
    alphabet are skipped, a pad sequence that completes a quad ends the
    parse, and leftover characters are an error. *)

Module binascii.

Definition BASE64_PAD : Z := 61.

(** The decoding table: the sextet of an alphabet character, 255 (the
    table's -1 stored in an unsigned char) for any other byte. *)
Definition table_a2b_base64 (c : Z) : Z :=
  if (65 <=? c) && (c <=? 90) then c - 65
  else if (97 <=? c) && (c <=? 122) then c - 71
  else if (48 <=? c) && (c <=? 57) then c + 4
  else if c =? 43 then 62
  else if c =? 47 then 63
  else 255.

(** Storing an [int] into an [unsigned char]. *)
Definition uchar (z : Z) : byte :=
  match Byte.of_N (Z.to_N (Z.land z 255)) with
  | Some b => b
  | None => x00
  end.

Definition Error_one_extra (bin_len : nat) : exception :=
  mkExc binascii_Error
    ("Invalid base64-encoded string: number of data characters ("
     +:+ pretty (Z.of_nat bin_len / 3 * 4 + 1)
     +:+ ") cannot be 1 more than a multiple of 4").

Definition Error_padding : exception :=
  mkExc binascii_Error "Incorrect padding".

(** The main loop, with the locals [quad_pos], [leftchar], [pads] and
    the output written so far. *)
Fixpoint a2b_loop (ascii_data : string) (quad_pos leftchar pads : Z)
    (bin_data : bytes) : outcome bytes :=
  match ascii_data with
  | EmptyString =>
      if quad_pos =? 0 then Ret bin_data
      else if quad_pos =? 1 then Raise (Error_one_extra (length bin_data))
      else Raise Error_padding
  | String ch rest =>
      let this_ch := ord ch in
      if this_ch =? BASE64_PAD then
        if 2 <=? quad_pos then
          if 4 <=? quad_pos + (pads + 1) then Ret bin_data
          else a2b_loop rest quad_pos leftchar (pads + 1) bin_data
        else a2b_loop rest quad_pos leftchar pads bin_data
      else
        let this_ch := table_a2b_base64 this_ch in
        if 64 <=? this_ch then a2b_loop rest quad_pos leftchar pads bin_data
        else
          match quad_pos with
          | 0 => a2b_loop rest 1 this_ch 0 bin_data
          | 1 =>
              a2b_loop rest 2 (Z.land this_ch 15) 0
                (bin_data ++ [uchar (Z.lor (Z.shiftl leftchar 2) (Z.shiftr this_ch 4))])%list
          | 2 =>
              a2b_loop rest 3 (Z.land this_ch 3) 0
                (bin_data ++ [uchar (Z.lor (Z.shiftl leftchar 4) (Z.shiftr this_ch 2))])%list
          | _ =>
              a2b_loop rest 0 0 0
                (bin_data ++ [uchar (Z.lor (Z.shiftl leftchar 6) this_ch)])%list
          end
  end.

Definition a2b_base64 (data : string) : outcome bytes :=
  a2b_loop data 0 0 0 [].

End binascii.

Module base64.

Definition is_ascii (c : ascii) : bool := ord c <? 128.

Fixpoint all_ascii (s : string) : bool :=
  match s with
  | EmptyString => true
  | String c rest => is_ascii c && all_ascii rest
  end.

(** [b64decode(s)] for a [str] argument, [altchars=None],
    [validate=False]. *)
Definition b64decode (s : string) : outcome bytes :=
  if all_ascii s then binascii.a2b_base64 s
  else Raise (mkExc ValueError
                "string argument should contain only ASCII characters").

(** The base64 alphabet of RFC 4648, indexed by sextet. *)
Definition table_b2a_base64 (v : Z) : ascii :=
  if v <? 26 then ascii_of_N (Z.to_N (v + 65))
  else if v <? 52 then ascii_of_N (Z.to_N (v + 71))
  else if v <? 62 then ascii_of_N (Z.to_N (v - 4))
  else if v =? 62 then "+"%char
  else "/"%char.

Definition byteZ (b : byte) : Z := Z.of_N (Byte.to_N b).

(** The reference encoder: what a well-formed base64 payload is. *)
Fixpoint b64encode (bin : bytes) : string :=
  match bin with
  | [] => EmptyString
  | [b0] =>
      String (table_b2a_base64 (Z.shiftr (byteZ b0) 2))
      (String (table_b2a_base64 (Z.shiftl (Z.land (byteZ b0) 3) 4))
      (String "="%char (String "="%char EmptyString)))
  | [b0; b1] =>
      String (table_b2a_base64 (Z.shiftr (byteZ b0) 2))
      (String (table_b2a_base64
                 (Z.lor (Z.shiftl (Z.land (byteZ b0) 3) 4) (Z.shiftr (byteZ b1) 4)))
      (String (table_b2a_base64 (Z.shiftl (Z.land (byteZ b1) 15) 2))
      (String "="%char EmptyString)))
  | b0 :: b1 :: b2 :: rest =>
      String (table_b2a_base64 (Z.shiftr (byteZ b0) 2))
      (String (table_b2a_base64
                 (Z.lor (Z.shiftl (Z.land (byteZ b0) 3) 4) (Z.shiftr (byteZ b1) 4)))
      (String (table_b2a_base64
                 (Z.lor (Z.shiftl (Z.land (byteZ b1) 15) 2) (Z.shiftr (byteZ b2) 6)))
      (String (table_b2a_base64 (Z.land (byteZ b2) 63))
      (b64encode rest))))
  end.

(** RFC 4648 validity, as [validate=True] would demand it: alphabet
    characters only, ended by at most two pads, length a multiple of 4. *)
Definition is_alphabet (c : ascii) : bool :=
  binascii.table_a2b_base64 (ord c) <? 64.



End base64.

(** ** The runtime operations the handler applies to the request *)

#[local] Set Warnings "-register-all".

(** A decoded JSON document as Python hands it to the handler. *)
Inductive pyval : Type :=
  | PyNone
  | PyBool (b : bool)
  | PyInt (n : Z)
  | PyFloat (literal : string)
  | PyStr (s : string)
  | PyList (l : list pyval)
  | PyDict (d : gmap string pyval).

(** [type(v).__name__] *)
Definition type_name (v : pyval) : string :=
  match v with
  | PyNone => "NoneType"
  | PyBool _ => "bool"
  | PyInt _ => "int"
  | PyFloat _ => "float"
  | PyStr _ => "str"
  | PyList _ => "list"
  | PyDict _ => "dict"
  end.

(** [obj[key]] for a [str] key.  [str(KeyError(key))] is [repr(key)]. *)
Definition getitem (obj : pyval) (key : string) : outcome pyval :=
  match obj with
  | PyDict d =>
      match d !! key with
      | Some v => Ret v
      | None => Raise (mkExc KeyError ("'" +:+ key +:+ "'"))
      end
  | PyList _ =>
      Raise (mkExc TypeError "list indices must be integers or slices, not str")
  | PyStr _ =>
      Raise (mkExc TypeError "string indices must be integers, not 'str'")
  | _ =>
      Raise (mkExc TypeError
               ("'" +:+ type_name obj +:+ "' object is not subscriptable"))
  end.

(** [s.split(sep)] for a one-character separator: one piece more than
    there are separators, empty pieces kept. *)
Fixpoint split (sep : ascii) (s : string) : list string :=
  match s with
  | EmptyString => [EmptyString]
  | String c rest =>
      if Ascii.eqb c sep then EmptyString :: split sep rest
      else
        match split sep rest with
        | piece :: pieces => String c piece :: pieces
        | [] => [String c EmptyString]
        end
  end.

(** [obj.split(sep)]: only a [str] has the method. *)
Definition str_split (obj : pyval) (sep : ascii) : outcome (list string) :=
  match obj with
  | PyStr s => Ret (split sep s)
  | _ =>
      Raise (mkExc AttributeError
               ("'" +:+ type_name obj +:+ "' object has no attribute 'split'"))
  end.

(** [l[i]] for a non-negative index. *)
Definition list_getitem {A : Type} (l : list A) (i : nat) : outcome A :=
  match l !! i with
  | Some x => Ret x
  | None => Raise (mkExc IndexError "list index out of range")
  end.

(** [io.BytesIO(b)]: a fresh in-memory file.  Its identity, the address
    the interpreter allocates it at, shows in its [repr]. *)
Record BytesIO : Type := io_BytesIO { obj_id : N; getvalue : bytes }.

Definition BytesIO_repr (fp : BytesIO) : string :=
  "<_io.BytesIO object at " +:+ HexString.of_N (obj_id fp) +:+ ">".

(** Flask's request, as far as the handler reads it: the [json]
    property yields the parsed body or raises (unsupported media type,
    malformed JSON). *)
Record Request : Type := mkRequest { request_json : outcome pyval }.

(** A JSON response: the object given to [jsonify] and the status code. *)
Record Response : Type :=
  mkResponse { response_json : gmap string pyval; status_code : Z }.

Definition jsonify (d : gmap string pyval) : gmap string pyval := d.

(** The server console: the texts printed so far, one entry for each
    call of [print] (a text with line breaks is still one entry). *)
Definition stdout : Type := list string.

Definition print (out : stdout) (line : string) : stdout := (out ++ [line])%list.

(** ** app.py *)

Section App.

(** The collaborators the module imports: Pillow's [Image.open] and
    the generative model's [generate_content]. *)
Variable Image : Type.
Variable Image_open : BytesIO -> outcome Image.

Inductive Part : Type :=
  | Text (s : string)
  | Img (img : Image).

(** The model's response; reading [.text] may itself raise. *)
Record GenerateContentResponse : Type := mkGen { text : outcome string }.

Variable generate_content : list Part -> outcome GenerateContentResponse.

Definition PROMPT : string :=
  "Describe detalladamente lo que ves en esta imagen en español, usando texto plano sin usar caracteres especiales y de manera clara para que pueda ser leído en voz alta".

(** [addr] is the address at which this call's [BytesIO] is created. *)
Definition analizar_imagen (addr : N) (imagen_bytes : bytes) : outcome string :=
  let* img := Image_open (io_BytesIO addr imagen_bytes) in
  let* response := generate_content [Text PROMPT; Img img] in
  text response.

(** [image_data.split(',')[1]] *)
Definition image_base64_of (image_data : pyval) : outcome string :=
  let* pieces := str_split image_data ","%char in
  list_getitem pieces 1.

(** The body of the [try] block, up to the value of [descripcion]. *)
Definition analizar_try (addr : N) (request : Request) : outcome string :=
  let* data := request_json request in
  let* image_data := getitem data "image" in
  let* image_base64 := image_base64_of image_data in
  let* image_bytes := base64.b64decode image_base64 in
  analizar_imagen addr image_bytes.

(** The places of the [try] block at which an exception can arise:
    [e] is raised by the step named, every earlier step having
    returned. *)
Inductive raises_in_try (addr : N) (request : Request) (e : exception) : Prop :=
  | raises_request_json :
      request_json request = Raise e ->
      raises_in_try addr request e
  | raises_getitem data :
      request_json request = Ret data ->
      getitem data "image" = Raise e ->
      raises_in_try addr request e
  | raises_split data image_data :
      request_json request = Ret data ->
      getitem data "image" = Ret image_data ->
      image_base64_of image_data = Raise e ->
      raises_in_try addr request e
  | raises_b64decode data image_data image_base64 :
      request_json request = Ret data ->
      getitem data "image" = Ret image_data ->
      image_base64_of image_data = Ret image_base64 ->
      base64.b64decode image_base64 = Raise e ->
      raises_in_try addr request e
  | raises_Image_open data image_data image_base64 image_bytes :
      request_json request = Ret data ->
      getitem data "image" = Ret image_data ->
      image_base64_of image_data = Ret image_base64 ->
      base64.b64decode image_base64 = Ret image_bytes ->
      Image_open (io_BytesIO addr image_bytes) = Raise e ->
      raises_in_try addr request e
  | raises_generate_content data image_data image_base64 image_bytes img :
      request_json request = Ret data ->
      getitem data "image" = Ret image_data ->
      image_base64_of image_data = Ret image_base64 ->
      base64.b64decode image_base64 = Ret image_bytes ->
      Image_open (io_BytesIO addr image_bytes) = Ret img ->
      generate_content [Text PROMPT; Img img] = Raise e ->
      raises_in_try addr request e
  | raises_text data image_data image_base64 image_bytes img response :
      request_json request = Ret data ->
      getitem data "image" = Ret image_data ->
      image_base64_of image_data = Ret image_base64 ->
      base64.b64decode image_base64 = Ret image_bytes ->
      Image_open (io_BytesIO addr image_bytes) = Ret img ->
      generate_content [Text PROMPT; Img img] = Ret response ->
      text response = Raise e ->
      raises_in_try addr request e.

(** The view function of [POST /analizar].  It yields what reaches
    Flask, a response or an exception the [except] clause does not
    name, together with the console after the call. *)
Definition analizar (addr : N) (out : stdout) (request : Request)
    : outcome Response * stdout :=
  match analizar_try addr request with
  | Ret descripcion =>
      (Ret (mkResponse
              (jsonify {[ "descripcion" := PyStr descripcion;
                          "status" := PyStr "success" ]})
              200),
       out)
  | Raise e =>
      if isinstance_Exception e then
        (Ret (mkResponse
                (jsonify {[ "error" := PyStr (exc_str e);
                            "status" := PyStr "error" ]})
                500),
         print out ("Error: " +:+ exc_str e))
      else (Raise e, out)
  end.

End App.

Arguments Text {Image} s.
Arguments Img {Image} img.

(** ** Vocabulary of the specification *)

(** How many times [c] occurs in [s]. *)
Fixpoint count_char (c : ascii) (s : string) : nat :=
  match s with
  | EmptyString => 0%nat
  | String x rest =>
      if Ascii.eqb x c then S (count_char c rest) else count_char c rest
  end.

(** The text before the first [sep] (all of [s] when there is none). *)
Fixpoint before (sep : ascii) (s : string) : string :=
  match s with
  | EmptyString => EmptyString
  | String x rest =>
      if Ascii.eqb x sep then EmptyString else String x (before sep rest)
  end.

(** The entire substring after the first [sep], when there is one. *)
Fixpoint after_first (sep : ascii) (s : string) : option string :=
  match s with
  | EmptyString => None
  | String x rest => if Ascii.eqb x sep then Some rest else after_first sep rest
  end.

(** ["data:<mime>;base64,<payload>"] *)
Definition data_url (mime payload : string) : string :=
  "data:" +:+ mime +:+ ";base64," +:+ payload.

(** [200 {"descripcion": <text>, "status": "success"}] *)
Definition success_response (descripcion : string) : Response :=
  mkResponse {[ "descripcion" := PyStr descripcion; "status" := PyStr "success" ]} 200.

(** [500 {"error": <message>, "status": "error"}] *)
Definition error_response (message : string) : Response :=
  mkResponse {[ "error" := PyStr message; "status" := PyStr "error" ]} 500.

(** The text the handler prints for an error. *)
Definition error_log (message : string) : string := "Error: " +:+ message.

(** A request whose JSON body is an object with the given [image]
    string, next to any other [fields]. *)
Definition image_request (fields : gmap string pyval) (image : string) : Request :=
  mkRequest (Ret (PyDict (<["image" := PyStr image]> fields))).

(** The envelope of a response. *)
Definition keys (r : Response) : gset string := dom (response_json r).

Definition envelope (r : Response) : Prop :=
  (response_json r !! "status" = Some (PyStr "success")
   /\ keys r = {[ "descripcion"; "status" ]} /\ status_code r = 200)
  \/
  (response_json r !! "status" = Some (PyStr "error")
   /\ keys r = {[ "error"; "status" ]} /\ status_code r = 500).



(** ** Stand-ins for the collaborators, used in the examples *)

(** A format check in the manner of Pillow: the PNG signature is
    recognised; anything else is refused with Pillow's message, which
    embeds the [repr] of the file object. *)
Definition PNG_SIGNATURE : bytes := [x89; x50; x4e; x47; x0d; x0a; x1a; x0a].

Fixpoint startswith (b prefix : bytes) : bool :=
  match prefix, b with
  | [], _ => true
  | p :: prefix', x :: b' => Byte.eqb x p && startswith b' prefix'
  | _ :: _, [] => false
  end.

Definition stub_Image_open (fp : BytesIO) : outcome bytes :=
  if startswith (getvalue fp) PNG_SIGNATURE then Ret (getvalue fp)
  else Raise (mkExc UnidentifiedImageError
                ("cannot identify image file " +:+ BytesIO_repr fp)).

(** A deterministic model stub answering a fixed text. *)
Definition stub_model (answer : string) (parts : list (Part bytes))
    : outcome GenerateContentResponse :=
  Ret (mkGen (Ret answer)).

(** The base64 text of a 1x1 PNG image, and its bytes. *)
Definition png1x1 : string :=
  "iVBORw0KGgoAAAANSUhEUgAAAAEAAAABCAYAAAAfFcSJAAAADUlEQVR42mNkYPhfDwAChwGA60e6kgAAAABJRU5ErkJggg==".

Definition png1x1_bytes : bytes :=
  Eval vm_compute in
    match base64.b64decode png1x1 with
    | Ret b => b
    | Raise _ => []
    end.

Definition sonriendo : string := "Una persona sonriendo".

(** The examples run the handler with [Image := bytes], the stand-in
    for Pillow and a model stub answering ["Una persona sonriendo"]. *)
Abbreviation run := (analizar bytes stub_Image_open (stub_model sonriendo)).

Definition png_url : string := data_url "image/png" png1x1.

(** The PNG data URL followed by a second comma and more text. *)
Definition two_commas_url : string := png_url +:+ ",extra".

(** The PNG payload with a character outside the alphabet inserted. *)
Definition bang_payload : string :=
  "iVBO!Rw0KGgoAAAANSUhEUgAAAAEAAAABCAYAAAAfFcSJAAAADUlEQVR42mNkYPhfDwAChwGA60e6kgAAAABJRU5ErkJggg==".

(** Base64 of the text [hello]: decodable, not an image. *)
Definition hello_url : string := data_url "text/plain" "aGVsbG8=".

Definition hello_bytes : bytes := [x68; x65; x6c; x6c; x6f].

Definition hello_refused : exception :=
  mkExc UnidentifiedImageError
    "cannot identify image file <_io.BytesIO object at 0x222e0>".


(** ** Further vocabulary: kinds of bodies and of payloads *)

(** [isinstance(v, dict)] and [isinstance(v, str)] *)
Definition is_dict (v : pyval) : bool :=
  match v with
  | PyDict _ => true
  | _ => false
  end.

Definition is_str (v : pyval) : bool :=
  match v with
  | PyStr _ => true
  | _ => false
  end.

(** A payload written with alphabet characters only (no pad). *)
Fixpoint alphabet_only (s : string) : bool :=
  match s with
  | EmptyString => true
  | String c rest => base64.is_alphabet c && alphabet_only rest
  end.


(** A payload in which no alphabet character occurs. *)
Fixpoint no_alphabet (s : string) : bool :=
  match s with
  | EmptyString => true
  | String c rest => negb (base64.is_alphabet c) && no_alphabet rest
  end.

(** The payload with every character dropped that is neither in the
    alphabet nor the pad. *)
Fixpoint discard_non_alphabet (s : string) : string :=
  match s with
  | EmptyString => EmptyString
  | String c rest =>
      if base64.is_alphabet c || (ord c =? binascii.BASE64_PAD)
      then String c (discard_non_alphabet rest)
      else discard_non_alphabet rest
  end.

(** A model that is interrupted, and one that answers only a call of
    two parts. *)
Definition interrupted_model (parts : list (Part bytes))
    : outcome GenerateContentResponse :=
  Raise (mkExc KeyboardInterrupt "").

Definition two_part_model (answer : string) (parts : list (Part bytes))
    : outcome GenerateContentResponse :=
  match parts with
  | [_; _] => Ret (mkGen (Ret answer))
  | _ => Raise (mkExc ValueError "unexpected contents")
  end.

(** ** base64: decoding an encoded payload gives the bytes back *)

Section Base64_roundtrip.

Import binascii base64.

Lemma forallb_seqZ (P : Z -> bool) (n : Z) :
  forallb P (seqZ 0 n) = true -> forall v, 0 <= v < n -> P v = true.
Proof.
  intros Hall v Hv. rewrite forallb_forall in Hall. apply Hall.
  apply list_elem_of_In, elem_of_seqZ. lia.
Qed.

Lemma byteZ_bounds (b : byte) : 0 <= byteZ b < 256.
Proof. unfold byteZ. pose proof (Byte.to_N_bounded b). lia. Qed.

Lemma uchar_byteZ (z : Z) (b : byte) : Z.land z 255 = byteZ b -> uchar z = b.
Proof.
  intros H. unfold uchar. rewrite H. unfold byteZ.
  rewrite N2Z.id, Byte.of_to_N. reflexivity.
Qed.

(** The two tables are inverse on sextets, and no alphabet character
    is the pad or outside ASCII. *)
Definition sextet_ok (v : Z) : bool :=
  let c := ord (table_b2a_base64 v) in
  negb (c =? ord ",") && negb (c =? BASE64_PAD) && (table_a2b_base64 c =? v)
  && (c <? 128).

Lemma sextet_table (v : Z) : 0 <= v < 64 -> sextet_ok v = true.
Proof. apply forallb_seqZ. vm_compute. reflexivity. Qed.

(** The bit identities of one quad, checked on every pair of bytes. *)
Definition pair_ok (x y : Z) : bool :=
  let s1 := Z.lor (Z.shiftl (Z.land x 3) 4) (Z.shiftr y 4) in
  let s2 := Z.lor (Z.shiftl (Z.land x 15) 2) (Z.shiftr y 6) in
  (Z.shiftr x 2 <? 64) && (Z.land x 63 <? 64) && (0 <=? Z.shiftr x 2)
  && (0 <=? Z.land x 63)
  && (0 <=? s1) && (s1 <? 64) && (0 <=? s2) && (s2 <? 64)
  && (Z.land (Z.lor (Z.shiftl (Z.shiftr x 2) 2) (Z.shiftr s1 4)) 255 =? x)
  && (Z.land (Z.lor (Z.shiftl (Z.land s1 15) 4) (Z.land y 15)) 255 =? y)
  && (Z.shiftr s2 2 =? Z.land x 15)
  && (Z.land (Z.lor (Z.shiftl (Z.land s2 3) 6) (Z.land y 63)) 255 =? y).

Lemma pair_table (x y : Z) :
  0 <= x < 256 -> 0 <= y < 256 -> pair_ok x y = true.
Proof.
  intros Hx Hy.
  assert (H : forallb (fun a => forallb (pair_ok a) (seqZ 0 256)) (seqZ 0 256) = true)
    by (vm_compute; reflexivity).
  pose proof (forallb_seqZ _ _ H x Hx) as Hrow. cbv beta in Hrow.
  exact (forallb_seqZ _ _ Hrow y Hy).
Qed.

Lemma pair_facts (x y : byte) :
  let s1 := Z.lor (Z.shiftl (Z.land (byteZ x) 3) 4) (Z.shiftr (byteZ y) 4) in
  let s2 := Z.lor (Z.shiftl (Z.land (byteZ x) 15) 2) (Z.shiftr (byteZ y) 6) in
  (0 <= Z.shiftr (byteZ x) 2 < 64) /\ (0 <= Z.land (byteZ x) 63 < 64)
  /\ (0 <= s1 < 64) /\ (0 <= s2 < 64)
  /\ uchar (Z.lor (Z.shiftl (Z.shiftr (byteZ x) 2) 2) (Z.shiftr s1 4)) = x
  /\ uchar (Z.lor (Z.shiftl (Z.land s1 15) 4) (Z.land (byteZ y) 15)) = y
  /\ Z.shiftr s2 2 = Z.land (byteZ x) 15
  /\ uchar (Z.lor (Z.shiftl (Z.land s2 3) 6) (Z.land (byteZ y) 63)) = y.
Proof.
  pose proof (pair_table _ _ (byteZ_bounds x) (byteZ_bounds y)) as H.
  unfold pair_ok in H. cbv zeta in *.
  repeat (apply andb_prop in H; destruct H as [H ?]).
  repeat split; try (apply uchar_byteZ); lia.
Qed.

(** One alphabet character read by the loop. *)
Lemma a2b_loop_sextet (v : Z) (rest : string) (quad_pos leftchar pads : Z)
    (bin_data : bytes) :
  0 <= v < 64 ->
  a2b_loop (String (table_b2a_base64 v) rest) quad_pos leftchar pads bin_data =
  match quad_pos with
  | 0 => a2b_loop rest 1 v 0 bin_data
  | 1 =>
      a2b_loop rest 2 (Z.land v 15) 0
        (bin_data ++ [uchar (Z.lor (Z.shiftl leftchar 2) (Z.shiftr v 4))])%list
  | 2 =>
      a2b_loop rest 3 (Z.land v 3) 0
        (bin_data ++ [uchar (Z.lor (Z.shiftl leftchar 4) (Z.shiftr v 2))])%list
  | _ =>
      a2b_loop rest 0 0 0
        (bin_data ++ [uchar (Z.lor (Z.shiftl leftchar 6) v)])%list
  end.
Proof.
  intros Hv. pose proof (sextet_table v Hv) as H. unfold sextet_ok in H.
  cbv zeta in H.
  apply andb_prop in H. destruct H as [H Hascii].
  apply andb_prop in H. destruct H as [H Htab].
  apply andb_prop in H. destruct H as [_ Hpad].
  apply negb_true_iff in Hpad. apply Z.eqb_eq in Htab.
  change (a2b_loop (String (table_b2a_base64 v) rest) quad_pos leftchar pads bin_data)
    with (if ord (table_b2a_base64 v) =? BASE64_PAD then
            if 2 <=? quad_pos then
              if 4 <=? quad_pos + (pads + 1) then Ret bin_data
              else a2b_loop rest quad_pos leftchar (pads + 1) bin_data
            else a2b_loop rest quad_pos leftchar pads bin_data
          else
            if 64 <=? table_a2b_base64 (ord (table_b2a_base64 v))
            then a2b_loop rest quad_pos leftchar pads bin_data
            else
              match quad_pos with
              | 0 => a2b_loop rest 1 (table_a2b_base64 (ord (table_b2a_base64 v))) 0 bin_data
              | 1 =>
                  a2b_loop rest 2 (Z.land (table_a2b_base64 (ord (table_b2a_base64 v))) 15) 0
                    (bin_data ++ [uchar (Z.lor (Z.shiftl leftchar 2)
                       (Z.shiftr (table_a2b_base64 (ord (table_b2a_base64 v))) 4))])%list
              | 2 =>
                  a2b_loop rest 3 (Z.land (table_a2b_base64 (ord (table_b2a_base64 v))) 3) 0
                    (bin_data ++ [uchar (Z.lor (Z.shiftl leftchar 4)
                       (Z.shiftr (table_a2b_base64 (ord (table_b2a_base64 v))) 2))])%list
              | _ =>
                  a2b_loop rest 0 0 0
                    (bin_data ++ [uchar (Z.lor (Z.shiftl leftchar 6)
                       (table_a2b_base64 (ord (table_b2a_base64 v))))])%list
              end).
  rewrite Hpad, Htab.
  destruct (64 <=? v) eqn:E; [apply Z.leb_le in E; lia | reflexivity].
Qed.

(** A pad character read by the loop. *)
Lemma a2b_loop_pad (rest : string) (quad_pos leftchar pads : Z) (bin_data : bytes) :
  a2b_loop (String "="%char rest) quad_pos leftchar pads bin_data =
  if 2 <=? quad_pos then
    if 4 <=? quad_pos + (pads + 1) then Ret bin_data
    else a2b_loop rest quad_pos leftchar (pads + 1) bin_data
  else a2b_loop rest quad_pos leftchar pads bin_data.
Proof. reflexivity. Qed.

Lemma bytes_ind3 (P : bytes -> Prop) :
  P [] -> (forall a, P [a]) -> (forall a b, P [a; b]) ->
  (forall a b c l, P l -> P (a :: b :: c :: l)) ->
  forall l, P l.
Proof.
  intros H0 H1 H2 H3 l.
  assert (H : P l /\ (forall a, P (a :: l)) /\ (forall a b, P (a :: b :: l))).
  { induction l as [|x l IH].
    - auto.
    - destruct IH as (IH0 & IH1 & IH2). auto. }
  apply H.
Qed.

Lemma a2b_loop_b64encode (bin : bytes) :
  forall out, a2b_loop (b64encode bin) 0 0 0 out = Ret (out ++ bin)%list.
Proof.
  induction bin as [|a|a b|a b c l IH] using bytes_ind3; intros out.
  - simpl. rewrite app_nil_r. reflexivity.
  - destruct (pair_facts a x00) as (Hs0 & _ & Hs1 & _ & Hb0 & _).
    cbv zeta in *.
    change (b64encode [a]) with
      (String (table_b2a_base64 (Z.shiftr (byteZ a) 2))
      (String (table_b2a_base64 (Z.shiftl (Z.land (byteZ a) 3) 4))
      (String "="%char (String "="%char EmptyString)))).
    change (Z.shiftr (byteZ x00) 4) with 0 in *. rewrite Z.lor_0_r in *.
    rewrite a2b_loop_sextet by assumption.
    rewrite a2b_loop_sextet by assumption.
    rewrite !a2b_loop_pad. simpl. rewrite Hb0. reflexivity.
  - destruct (pair_facts a b) as (Hs0 & _ & Hs1 & _ & Hb0 & Hb1 & _).
    destruct (pair_facts b x00) as (_ & _ & _ & Hs2 & _ & _ & Hsh & _).
    cbv zeta in *.
    change (b64encode [a; b]) with
      (String (table_b2a_base64 (Z.shiftr (byteZ a) 2))
      (String (table_b2a_base64
                 (Z.lor (Z.shiftl (Z.land (byteZ a) 3) 4) (Z.shiftr (byteZ b) 4)))
      (String (table_b2a_base64 (Z.shiftl (Z.land (byteZ b) 15) 2))
      (String "="%char EmptyString)))).
    change (Z.shiftr (byteZ x00) 6) with 0 in *. rewrite Z.lor_0_r in *.
    rewrite a2b_loop_sextet by assumption.
    rewrite a2b_loop_sextet by assumption.
    rewrite a2b_loop_sextet by assumption.
    rewrite a2b_loop_pad. simpl.
    rewrite Hsh, Hb0, Hb1, <- app_assoc. reflexivity.
  - destruct (pair_facts a b) as (Hs0 & _ & Hs1 & _ & Hb0 & Hb1 & _).
    destruct (pair_facts b c) as (_ & Hs3 & _ & Hs2 & _ & _ & Hsh & Hb2).
    destruct (pair_facts c x00) as (_ & Hs3' & _).
    cbv zeta in *.
    change (b64encode (a :: b :: c :: l)) with
      (String (table_b2a_base64 (Z.shiftr (byteZ a) 2))
      (String (table_b2a_base64
                 (Z.lor (Z.shiftl (Z.land (byteZ a) 3) 4) (Z.shiftr (byteZ b) 4)))
      (String (table_b2a_base64
                 (Z.lor (Z.shiftl (Z.land (byteZ b) 15) 2) (Z.shiftr (byteZ c) 6)))
      (String (table_b2a_base64 (Z.land (byteZ c) 63))
      (b64encode l))))).
    rewrite a2b_loop_sextet by assumption.
    rewrite a2b_loop_sextet by assumption.
    rewrite a2b_loop_sextet by assumption.
    rewrite a2b_loop_sextet by assumption.
    cbv iota.
    rewrite Hsh, Hb0, Hb1, Hb2, IH, <- !app_assoc. reflexivity.
Qed.

Lemma all_ascii_b64encode (bin : bytes) : all_ascii (b64encode bin) = true.
Proof.
  assert (Hc : forall v, 0 <= v < 64 -> is_ascii (table_b2a_base64 v) = true).
  { intros v Hv. pose proof (sextet_table v Hv) as H. unfold sextet_ok in H.
    apply andb_prop in H. destruct H as [_ H]. exact H. }
  induction bin as [|a|a b|a b c l IH] using bytes_ind3.
  - reflexivity.
  - destruct (pair_facts a x00) as (Hs0 & _ & Hs1 & _). cbv zeta in *.
    change (Z.shiftr (byteZ x00) 4) with 0 in *. rewrite Z.lor_0_r in *.
    cbn [b64encode all_ascii]. rewrite !Hc by assumption. reflexivity.
  - destruct (pair_facts a b) as (Hs0 & _ & Hs1 & _).
    destruct (pair_facts b x00) as (_ & _ & _ & Hs2 & _). cbv zeta in *.
    change (Z.shiftr (byteZ x00) 6) with 0 in *. rewrite Z.lor_0_r in *.
    cbn [b64encode all_ascii]. rewrite !Hc by assumption. reflexivity.
  - destruct (pair_facts a b) as (Hs0 & _ & Hs1 & _).
    destruct (pair_facts b c) as (_ & _ & _ & Hs2 & _).
    destruct (pair_facts c x00) as (_ & Hs3 & _). cbv zeta in *.
    cbn [b64encode all_ascii]. rewrite !Hc by assumption. rewrite IH. reflexivity.
Qed.

(** The encoder never writes a comma. *)
Lemma count_comma_b64encode (bin : bytes) :
  count_char "," (b64encode bin) = 0%nat.
Proof.
  assert (Hc : forall v, 0 <= v < 64 ->
               Ascii.eqb (table_b2a_base64 v) "," = false).
  { intros v Hv. pose proof (sextet_table v Hv) as H. unfold sextet_ok in H.
    cbv zeta in H. repeat (apply andb_prop in H; destruct H as [H ?]).
    apply negb_true_iff in H. apply Z.eqb_neq in H.
    destruct (Ascii.eqb (table_b2a_base64 v) ",") eqn:E; [|reflexivity].
    apply Ascii.eqb_eq in E. rewrite E in H. contradiction. }
  induction bin as [|a|a b|a b c l IH] using bytes_ind3.
  - reflexivity.
  - destruct (pair_facts a x00) as (Hs0 & _ & Hs1 & _). cbv zeta in *.
    change (Z.shiftr (byteZ x00) 4) with 0 in *. rewrite Z.lor_0_r in *.
    cbn [b64encode count_char]. rewrite !Hc by assumption. reflexivity.
  - destruct (pair_facts a b) as (Hs0 & _ & Hs1 & _).
    destruct (pair_facts b x00) as (_ & _ & _ & Hs2 & _). cbv zeta in *.
    change (Z.shiftr (byteZ x00) 6) with 0 in *. rewrite Z.lor_0_r in *.
    cbn [b64encode count_char]. rewrite !Hc by assumption. reflexivity.
  - destruct (pair_facts a b) as (Hs0 & _ & Hs1 & _).
    destruct (pair_facts b c) as (_ & _ & _ & Hs2 & _).
    destruct (pair_facts c x00) as (_ & Hs3 & _). cbv zeta in *.
    cbn [b64encode count_char]. rewrite !Hc by assumption. exact IH.
Qed.

(** [b64decode(b64encode(b)) == b] *)
Lemma b64decode_b64encode (bin : bytes) : b64decode (b64encode bin) = Ret bin.
Proof.
  unfold b64decode, a2b_base64.
  rewrite all_ascii_b64encode. apply a2b_loop_b64encode.
Qed.

End Base64_roundtrip.

(** ** Splitting the data URL *)

Section Split.

Variable sep : ascii.

(** [split] cuts off the text before the first separator and goes on
    with what follows it. *)
Lemma split_unfold (s : string) :
  split sep s =
  before sep s ::
    match after_first sep s with
    | Some rest => split sep rest
    | None => []
    end.
Proof.
  induction s as [|x s IH]; simpl.
  - reflexivity.
  - destruct (Ascii.eqb x sep); [reflexivity|].
    rewrite IH. reflexivity.
Qed.

Lemma after_first_None (s : string) :
  after_first sep s = None <-> count_char sep s = 0%nat.
Proof.
  induction s as [|x s IH]; simpl.
  - tauto.
  - destruct (Ascii.eqb x sep); [split; discriminate | exact IH].
Qed.

Lemma before_no_sep (s : string) : count_char sep s = 0%nat -> before sep s = s.
Proof.
  induction s as [|x s IH]; simpl; [reflexivity|].
  destruct (Ascii.eqb x sep); [discriminate|].
  intros H. rewrite IH by assumption. reflexivity.
Qed.

Lemma before_eq_no_sep (s : string) : before sep s = s -> count_char sep s = 0%nat.
Proof.
  induction s as [|x s IH]; simpl; [reflexivity|].
  destruct (Ascii.eqb x sep); [discriminate|].
  intros H. injection H as H. auto.
Qed.

Lemma count_char_before (s : string) : count_char sep (before sep s) = 0%nat.
Proof.
  induction s as [|x s IH]; simpl; [reflexivity|].
  destruct (Ascii.eqb x sep) eqn:E; [reflexivity|].
  simpl. rewrite E. exact IH.
Qed.

Lemma after_first_app (pre rest : string) :
  count_char sep pre = 0%nat ->
  after_first sep (pre +:+ String sep rest) = Some rest.
Proof.
  induction pre as [|x pre IH]; simpl.
  - rewrite Ascii.eqb_refl. reflexivity.
  - destruct (Ascii.eqb x sep); [discriminate | exact IH].
Qed.

Lemma before_app (pre rest : string) :
  count_char sep pre = 0%nat ->
  before sep (pre +:+ String sep rest) = pre.
Proof.
  induction pre as [|x pre IH]; simpl.
  - rewrite Ascii.eqb_refl. reflexivity.
  - destruct (Ascii.eqb x sep); [discriminate|].
    intros H. rewrite IH by assumption. reflexivity.
Qed.

(** Python's [len(s.split(sep)) == s.count(sep) + 1]. *)
Lemma length_split (s : string) :
  length (split sep s) = S (count_char sep s).
Proof.
  induction s as [|x s IH]; simpl; [reflexivity|].
  destruct (Ascii.eqb x sep); simpl; [rewrite IH; reflexivity|].
  destruct (split sep s); simpl in *; [discriminate | exact IH].
Qed.

End Split.

(** [image_data.split(',')[1]] is the text between the first comma and
    the next one; without a comma the index is out of range. *)
Lemma image_base64_of_str (s : string) :
  image_base64_of (PyStr s) =
  match after_first "," s with
  | Some rest => Ret (before "," rest)
  | None => Raise (mkExc IndexError "list index out of range")
  end.
Proof.
  unfold image_base64_of, str_split, bind, list_getitem.
  rewrite split_unfold.
  destruct (after_first "," s) as [rest|]; [|reflexivity].
  rewrite split_unfold. reflexivity.
Qed.

(** ** The decoder only raises [binascii.Error] or [ValueError] *)

Lemma a2b_loop_raises (s : string) :
  forall quad_pos leftchar pads bin_data e,
    binascii.a2b_loop s quad_pos leftchar pads bin_data = Raise e ->
    exc_class e = binascii_Error.
Proof.
  induction s as [|ch rest IH]; intros quad_pos leftchar pads bin_data e H.
  - simpl in H. repeat case_match; inversion H; reflexivity.
  - cbn [binascii.a2b_loop] in H. cbv zeta in H.
    repeat case_match; try discriminate; eauto.
Qed.

Lemma b64decode_raises (s : string) (e : exception) :
  base64.b64decode s = Raise e -> isinstance_Exception e = true.
Proof.
  unfold base64.b64decode, binascii.a2b_base64. intros H.
  destruct (base64.all_ascii s).
  - apply a2b_loop_raises in H. unfold isinstance_Exception. rewrite H. reflexivity.
  - inversion H. reflexivity.
Qed.

Lemma getitem_raises (obj : pyval) (key : string) (e : exception) :
  getitem obj key = Raise e -> isinstance_Exception e = true.
Proof.
  unfold getitem. intros H. repeat case_match; inversion H; reflexivity.
Qed.

Lemma image_base64_of_raises (image_data : pyval) (e : exception) :
  image_base64_of image_data = Raise e -> isinstance_Exception e = true.
Proof.
  unfold image_base64_of, list_getitem. intros H.
  destruct image_data; cbn [str_split bind] in H; try (inversion H; reflexivity).
  destruct (split "," s !! 1%nat); inversion H; reflexivity.
Qed.

(** The steps the Python runtime itself carries out raise instances of
    [Exception] only. *)
Lemma runtime_steps_raise_Exception (data image_data : pyval)
    (image_base64 : string) (e : exception) :
  getitem data "image" = Raise e
  \/ image_base64_of image_data = Raise e
  \/ base64.b64decode image_base64 = Raise e ->
  isinstance_Exception e = true.
Proof.
  intros [H | [H | H]];
    eauto using getitem_raises, image_base64_of_raises, b64decode_raises.
Qed.

(** ** The envelope of the two responses *)

Lemma success_envelope (descripcion : string) :
  envelope (success_response descripcion).
Proof.
  left. unfold success_response, keys. cbn [response_json status_code].
  split; [|split].
  - rewrite lookup_insert_ne by discriminate. apply lookup_singleton_eq.
  - rewrite dom_insert_L, dom_singleton_L. reflexivity.
  - reflexivity.
Qed.

Lemma error_envelope (message : string) : envelope (error_response message).
Proof.
  right. unfold error_response, keys. cbn [response_json status_code].
  split; [|split].
  - rewrite lookup_insert_ne by discriminate. apply lookup_singleton_eq.
  - rewrite dom_insert_L, dom_singleton_L. reflexivity.
  - reflexivity.
Qed.

Lemma envelope_exclusive (r : Response) :
  envelope r -> ~ ("descripcion" ∈ keys r /\ "error" ∈ keys r).
Proof.
  intros [(_ & Hk & _) | (_ & Hk & _)] [Hd He].
  - rewrite Hk, elem_of_union, !elem_of_singleton in He.
    destruct He; discriminate.
  - rewrite Hk, elem_of_union, !elem_of_singleton in Hd.
    destruct Hd; discriminate.
Qed.


(** ** The handler *)

Section Handler.

Variable Image : Type.
Variable Image_open : BytesIO -> outcome Image.
Variable generate_content : list (Part Image) -> outcome GenerateContentResponse.

Local Abbreviation analizar_imagen := (analizar_imagen Image Image_open generate_content).
Local Abbreviation analizar_try := (analizar_try Image Image_open generate_content).
Local Abbreviation analizar := (analizar Image Image_open generate_content).
Local Abbreviation raises_in_try := (raises_in_try Image Image_open generate_content).

(** The three ways out of the [try] statement. *)
Lemma analizar_returns addr out request descripcion :
  analizar_try addr request = Ret descripcion ->
  analizar addr out request = (Ret (success_response descripcion), out).
Proof. intros H. unfold analizar. rewrite H. reflexivity. Qed.

Lemma analizar_catches addr out request e :
  analizar_try addr request = Raise e ->
  isinstance_Exception e = true ->
  analizar addr out request =
  (Ret (error_response (exc_str e)), print out (error_log (exc_str e))).
Proof. intros H He. unfold analizar. rewrite H, He. reflexivity. Qed.

Lemma analizar_lets_through addr out request e :
  analizar_try addr request = Raise e ->
  isinstance_Exception e = false ->
  analizar addr out request = (Raise e, out).
Proof. intros H He. unfold analizar. rewrite H, He. reflexivity. Qed.

(** [raises_in_try] names exactly the failures of the [try] block. *)
Lemma raises_in_try_iff addr request e :
  raises_in_try addr request e <-> analizar_try addr request = Raise e.
Proof.
  unfold analizar_try, analizar_imagen. split.
  - intros H. destruct H;
      repeat match goal with
             | Heq : _ = _ |- _ => rewrite Heq; clear Heq; cbn [bind]
             end; reflexivity.
  - intros H.
    destruct (request_json request) as [data|] eqn:E1; cbn [bind] in H;
      [|inversion H; subst; eapply raises_request_json; eauto].
    destruct (getitem data "image") as [image_data|] eqn:E2; cbn [bind] in H;
      [|inversion H; subst; eapply raises_getitem; eauto].
    destruct (image_base64_of image_data) as [image_base64|] eqn:E3;
      cbn [bind] in H; [|inversion H; subst; eapply raises_split; eauto].
    destruct (base64.b64decode image_base64) as [image_bytes|] eqn:E4;
      cbn [bind] in H; [|inversion H; subst; eapply raises_b64decode; eauto].
    destruct (Image_open (io_BytesIO addr image_bytes)) as [img|] eqn:E5;
      cbn [bind] in H; [|inversion H; subst; eapply raises_Image_open; eauto].
    destruct (generate_content [Text PROMPT; Img img]) as [response|] eqn:E6;
      cbn [bind] in H;
      [|inversion H; subst; eapply raises_generate_content; eauto].
    eapply raises_text; eauto.
Qed.

(** The [try] block on a body that is an object with an [image]. *)
Lemma analizar_try_image addr request d image_data :
  request_json request = Ret (PyDict d) ->
  d !! "image" = Some image_data ->
  analizar_try addr request =
  (let* image_base64 := image_base64_of image_data in
   let* image_bytes := base64.b64decode image_base64 in
   analizar_imagen addr image_bytes).
Proof.
  intros Hj Hd. unfold analizar_try. rewrite Hj. cbn [bind getitem].
  rewrite Hd. reflexivity.
Qed.

Lemma analizar_try_image_request addr fields image :
  analizar_try addr (image_request fields image) =
  (let* image_base64 := image_base64_of (PyStr image) in
   let* image_bytes := base64.b64decode image_base64 in
   analizar_imagen addr image_bytes).
Proof.
  apply (analizar_try_image _ _ (<["image" := PyStr image]> fields)).
  - reflexivity.
  - apply lookup_insert_eq.
Qed.

(** An image string without a comma: [split] gives one piece and the
    index 1 is out of range. *)
Lemma analizar_try_no_comma addr request d image :
  request_json request = Ret (PyDict d) ->
  d !! "image" = Some (PyStr image) ->
  count_char "," image = 0%nat ->
  analizar_try addr request = Raise (mkExc IndexError "list index out of range").
Proof.
  intros Hj Hd Hc. rewrite (analizar_try_image _ _ _ _ Hj Hd).
  rewrite image_base64_of_str.
  apply after_first_None in Hc. rewrite Hc. reflexivity.
Qed.

(** The comma of a data URL is its first one. *)
Lemma after_first_data_url (mime payload : string) :
  count_char "," mime = 0%nat ->
  after_first "," (data_url mime payload) = Some payload.
Proof.
  intros Hm. unfold data_url. simpl.
  induction mime as [|x mime IH]; simpl in *; [reflexivity|].
  destruct (Ascii.eqb x ","); [discriminate | auto].
Qed.

(** The response alone, whatever has been printed before. *)
Lemma fst_analizar addr out request :
  fst (analizar addr out request) =
  match analizar_try addr request with
  | Ret descripcion => Ret (success_response descripcion)
  | Raise e =>
      if isinstance_Exception e then Ret (error_response (exc_str e))
      else Raise e
  end.
Proof.
  unfold analizar. destruct (analizar_try addr request) as [t|e]; [reflexivity|].
  destruct (isinstance_Exception e); reflexivity.
Qed.

(** C1. A request whose [image] is a data URL carrying the base64
    encoding of bytes that [Image.open] accepts, with the model
    answering a text, gets [200] with that text as [descripcion] and
    status ["success"]; nothing is printed. *)
Theorem analizar_data_url_success addr out request d mime imagen_bytes img
    response descripcion :
  request_json request = Ret (PyDict d) ->
  d !! "image" = Some (PyStr (data_url mime (base64.b64encode imagen_bytes))) ->
  count_char "," mime = 0%nat ->
  Image_open (io_BytesIO addr imagen_bytes) = Ret img ->
  generate_content [Text PROMPT; Img img] = Ret response ->
  text response = Ret descripcion ->
  analizar addr out request = (Ret (success_response descripcion), out).
Proof.
  intros Hj Hd Hm Himg Hgen Htext. apply analizar_returns.
  rewrite (analizar_try_image _ _ _ _ Hj Hd), image_base64_of_str.
  rewrite (after_first_data_url _ _ Hm).
  rewrite before_no_sep by apply count_comma_b64encode.
  cbn [bind]. rewrite b64decode_b64encode. cbn [bind].
  unfold analizar_imagen. rewrite Himg. cbn [bind]. rewrite Hgen. exact Htext.
Qed.

(** C2. When a step of the [try] block raises an exception (an
    instance of [Exception], which is what the handler's clause
    names), the handler returns [500] with the exception's message as
    [error] and status ["error"], and prints the message; the handler
    returns, the exception does not leave it. *)
Theorem analizar_exception_500 addr out request e :
  raises_in_try addr request e ->
  isinstance_Exception e = true ->
  analizar addr out request =
  (Ret (error_response (exc_str e)), print out (error_log (exc_str e))).
Proof.
  intros H He. apply analizar_catches; [|exact He].
  apply raises_in_try_iff. exact H.
Qed.

(** C3, as the code has it. An image string without a comma gets the
    [500] error response; one with two or more commas is not refused
    for that: the handler answers it exactly as it answers the string
    cut before its second comma. *)
Theorem analizar_comma_count addr out fields :
  (forall image,
      count_char "," image = 0%nat ->
      analizar addr out (image_request fields image) =
      (Ret (error_response "list index out of range"),
       print out (error_log "list index out of range")))
  /\
  (forall pre seg tail,
      count_char "," pre = 0%nat ->
      count_char "," seg = 0%nat ->
      analizar addr out
        (image_request fields (pre +:+ String "," (seg +:+ String "," tail))) =
      analizar addr out (image_request fields (pre +:+ String "," seg))).
Proof.
  split.
  - intros image Hc.
    apply (analizar_catches _ _ _ (mkExc IndexError "list index out of range"));
      [|reflexivity].
    apply (analizar_try_no_comma _ _ (<["image" := PyStr image]> fields) image);
      [reflexivity | apply lookup_insert_eq | exact Hc].
  - intros pre seg tail Hpre Hseg. unfold analizar.
    rewrite !analizar_try_image_request, !image_base64_of_str.
    rewrite !after_first_app by assumption.
    rewrite before_app by assumption.
    rewrite before_no_sep by assumption. reflexivity.
Qed.

(** C4, as the code has it. For an image string with a comma, the
    handler decodes the text between the first comma and the next
    one; that is all of the text after the first comma exactly when
    no further comma follows. *)
Theorem image_base64_segment addr fields image rest :
  after_first "," image = Some rest ->
  image_base64_of (PyStr image) = Ret (before "," rest)
  /\ analizar_try addr (image_request fields image) =
     (let* image_bytes := base64.b64decode (before "," rest) in
      analizar_imagen addr image_bytes)
  /\ (image_base64_of (PyStr image) = Ret rest <-> count_char "," rest = 0%nat).
Proof.
  intros H. split; [|split].
  - rewrite image_base64_of_str, H. reflexivity.
  - rewrite analizar_try_image_request, image_base64_of_str, H. reflexivity.
  - rewrite image_base64_of_str, H. split.
    + intros Heq. injection Heq as Heq. apply before_eq_no_sep. exact Heq.
    + intros Hc. rewrite before_no_sep by exact Hc. reflexivity.
Qed.


(** C6. An [image] string without any comma gets [500] with status
    ["error"] (the message is that of the [IndexError]). *)
Theorem analizar_no_comma_500 addr out request d image :
  request_json request = Ret (PyDict d) ->
  d !! "image" = Some (PyStr image) ->
  count_char "," image = 0%nat ->
  analizar addr out request =
  (Ret (error_response "list index out of range"),
   print out (error_log "list index out of range")).
Proof.
  intros Hj Hd Hc.
  apply (analizar_catches _ _ _ (mkExc IndexError "list index out of range"));
    [|reflexivity].
  exact (analizar_try_no_comma _ _ _ _ Hj Hd Hc).
Qed.

(** C7. When the decoded bytes are not an image [Image.open] can
    read, [analizar_imagen] fails at that step, before the model is
    called, and the handler returns [500] with status ["error"]. *)
Theorem analizar_unreadable_image_500 addr out request data image_data
    image_base64 image_bytes e :
  request_json request = Ret data ->
  getitem data "image" = Ret image_data ->
  image_base64_of image_data = Ret image_base64 ->
  base64.b64decode image_base64 = Ret image_bytes ->
  Image_open (io_BytesIO addr image_bytes) = Raise e ->
  isinstance_Exception e = true ->
  analizar_imagen addr image_bytes = Raise e
  /\ analizar addr out request =
     (Ret (error_response (exc_str e)), print out (error_log (exc_str e))).
Proof.
  intros Hj Hg Hs Hb Ho He. split.
  - unfold analizar_imagen. rewrite Ho. reflexivity.
  - apply analizar_catches; [|exact He].
    apply raises_in_try_iff. eapply raises_Image_open; eauto.
Qed.

(** C8. When the model call succeeds, [analizar_imagen] returns the
    model's text as it is, and the [descripcion] of the [200]
    response is that same text. *)
Theorem descripcion_is_model_text addr out request data image_data
    image_base64 image_bytes img response model_text :
  request_json request = Ret data ->
  getitem data "image" = Ret image_data ->
  image_base64_of image_data = Ret image_base64 ->
  base64.b64decode image_base64 = Ret image_bytes ->
  Image_open (io_BytesIO addr image_bytes) = Ret img ->
  generate_content [Text PROMPT; Img img] = Ret response ->
  text response = Ret model_text ->
  analizar_imagen addr image_bytes = Ret model_text
  /\ exists r,
       analizar addr out request = (Ret r, out)
       /\ status_code r = 200
       /\ response_json r !! "descripcion" = Some (PyStr model_text).
Proof.
  intros Hj Hg Hs Hb Ho Hgen Ht.
  assert (Him : analizar_imagen addr image_bytes = Ret model_text).
  { unfold analizar_imagen. rewrite Ho. cbn [bind]. rewrite Hgen. exact Ht. }
  split; [exact Him|].
  exists (success_response model_text). split; [|split].
  - apply analizar_returns. unfold analizar_try.
    rewrite Hj. cbn [bind]. rewrite Hg. cbn [bind]. rewrite Hs. cbn [bind].
    rewrite Hb. exact Him.
  - reflexivity.
  - apply lookup_insert_eq.
Qed.


(** C10. The handler either returns a response that satisfies the
    envelope invariant (status ["success"], exactly the fields
    [descripcion] and [status], code [200]; or status ["error"],
    exactly the fields [error] and [status], code [500]; never both
    [descripcion] and [error]), or lets through an exception that is
    not an instance of [Exception]. *)
Theorem analizar_envelope addr out request :
  match fst (analizar addr out request) with
  | Ret r => envelope r /\ ~ ("descripcion" ∈ keys r /\ "error" ∈ keys r)
  | Raise e => isinstance_Exception e = false
  end.
Proof.
  rewrite fst_analizar.
  destruct (analizar_try addr request) as [descripcion|e].
  - split; [|apply envelope_exclusive]; apply success_envelope.
  - destruct (isinstance_Exception e) eqn:E; [|exact E].
    split; [|apply envelope_exclusive]; apply error_envelope.
Qed.

End Handler.

(** ** The theorems at concrete requests *)

Lemma analizar_data_url_success_witness :
  run 140000%N [] (image_request ∅ png_url) = (Ret (success_response sonriendo), []).
Proof.
  apply (analizar_data_url_success bytes stub_Image_open (stub_model sonriendo)
           140000%N [] (image_request ∅ png_url)
           (<["image" := PyStr png_url]> ∅) "image/png" png1x1_bytes
           png1x1_bytes (mkGen (Ret sonriendo)) sonriendo);
    vm_compute; reflexivity.
Defined.

Lemma analizar_exception_500_witness :
  run 140000%N [] (mkRequest (Ret (PyDict ∅))) =
  (Ret (error_response "'image'"), ["Error: 'image'"]).
Proof.
  apply (analizar_exception_500 bytes stub_Image_open (stub_model sonriendo)
           140000%N [] (mkRequest (Ret (PyDict ∅))) (mkExc KeyError "'image'")).
  - apply (raises_getitem _ _ _ _ _ _ (PyDict ∅)); reflexivity.
  - reflexivity.
Defined.

(** C3 as stated fails: a string with two commas is answered [200]. *)
Lemma two_commas_accepted :
  count_char "," two_commas_url = 2%nat
  /\ run 140000%N [] (image_request ∅ two_commas_url) =
     (Ret (success_response sonriendo), []).
Proof. split; vm_compute; reflexivity. Qed.

Lemma analizar_comma_count_witness :
  run 140000%N [] (image_request ∅ "not-a-data-url") =
  (Ret (error_response "list index out of range"),
   ["Error: list index out of range"])
  /\ run 140000%N [] (image_request ∅ ("data:image/png;base64" +:+ String "," (png1x1 +:+ String "," "extra"))) =
     run 140000%N [] (image_request ∅ ("data:image/png;base64" +:+ String "," png1x1)).
Proof.
  pose proof (analizar_comma_count bytes stub_Image_open (stub_model sonriendo)
                140000%N [] ∅) as [H0 H2].
  split.
  - apply (H0 "not-a-data-url"). reflexivity.
  - apply (H2 "data:image/png;base64" png1x1 "extra"); reflexivity.
Defined.

(** C4 as stated fails: the text after the first comma goes on past the
    second comma, the decoded segment does not. *)
Lemma segment_stops_at_second_comma :
  after_first "," "data:image/png;base64,aGVsbG8=,d29ybGQ=" = Some "aGVsbG8=,d29ybGQ="
  /\ image_base64_of (PyStr "data:image/png;base64,aGVsbG8=,d29ybGQ=") = Ret "aGVsbG8="
  /\ image_base64_of (PyStr "data:image/png;base64,aGVsbG8=,d29ybGQ=")
     <> Ret "aGVsbG8=,d29ybGQ=".
Proof. repeat split; try reflexivity. vm_compute. discriminate. Qed.

Lemma image_base64_segment_witness :
  image_base64_of (PyStr "data:image/png;base64,aGVsbG8=,d29ybGQ=") = Ret "aGVsbG8="
  /\ image_base64_of (PyStr hello_url) = Ret "aGVsbG8=".
Proof.
  split.
  - exact (proj1 (image_base64_segment bytes stub_Image_open (stub_model sonriendo)
                    140000%N ∅ "data:image/png;base64,aGVsbG8=,d29ybGQ="
                    "aGVsbG8=,d29ybGQ=" eq_refl)).
  - exact (proj1 (image_base64_segment bytes stub_Image_open (stub_model sonriendo)
                    140000%N ∅ hello_url "aGVsbG8=" eq_refl)).
Defined.


Lemma analizar_no_comma_500_witness :
  run 140000%N [] (image_request ∅ "not-a-data-url") =
  (Ret (error_response "list index out of range"),
   ["Error: list index out of range"]).
Proof.
  apply (analizar_no_comma_500 bytes stub_Image_open (stub_model sonriendo)
           140000%N [] (image_request ∅ "not-a-data-url")
           (<["image" := PyStr "not-a-data-url"]> ∅) "not-a-data-url");
    vm_compute; reflexivity.
Defined.

Lemma analizar_unreadable_image_500_witness :
  analizar_imagen bytes stub_Image_open (stub_model sonriendo) 140000%N hello_bytes =
  Raise hello_refused
  /\ run 140000%N [] (image_request ∅ hello_url) =
     (Ret (error_response (exc_str hello_refused)),
      [error_log (exc_str hello_refused)]).
Proof.
  apply (analizar_unreadable_image_500 bytes stub_Image_open (stub_model sonriendo)
           140000%N [] (image_request ∅ hello_url)
           (PyDict (<["image" := PyStr hello_url]> ∅)) (PyStr hello_url)
           "aGVsbG8=" hello_bytes hello_refused);
    vm_compute; reflexivity.
Defined.

Lemma descripcion_is_model_text_witness :
  analizar_imagen bytes stub_Image_open (stub_model sonriendo) 140000%N png1x1_bytes =
  Ret sonriendo
  /\ exists r,
       run 140000%N [] (image_request ∅ png_url) = (Ret r, [])
       /\ status_code r = 200
       /\ response_json r !! "descripcion" = Some (PyStr sonriendo).
Proof.
  apply (descripcion_is_model_text bytes stub_Image_open (stub_model sonriendo)
           140000%N [] (image_request ∅ png_url)
           (PyDict (<["image" := PyStr png_url]> ∅)) (PyStr png_url)
           png1x1 png1x1_bytes png1x1_bytes (mkGen (Ret sonriendo)) sonriendo);
    vm_compute; reflexivity.
Defined.




(** ** More on the decoder: what it skips, accepts and refuses *)

Section Base64_lenient.

Import binascii base64.

Lemma ord_bounds (c : ascii) : 0 <= ord c < 256.
Proof. unfold ord. pose proof (N_ascii_bounded c). lia. Qed.

(** An alphabet character is ASCII, is not the pad and is not a comma. *)
Lemma is_alphabet_facts (c : ascii) :
  is_alphabet c = true ->
  (ord c =? BASE64_PAD) = false
  /\ (64 <=? table_a2b_base64 (ord c)) = false
  /\ is_ascii c = true
  /\ Ascii.eqb c "," = false.
Proof.
  unfold is_alphabet, is_ascii, BASE64_PAD. intros H.
  pose proof (ord_bounds c) as Hb. apply Z.ltb_lt in H.
  assert (Hc : ord c <> 61 /\ ord c < 128 /\ ord c <> 44).
  { unfold table_a2b_base64 in H.
    repeat match type of H with
           | context [if ?b then _ else _] => destruct b eqn:?
           end; lia. }
  destruct Hc as (H1 & H2 & H3). repeat split.
  - apply Z.eqb_neq. exact H1.
  - apply Z.leb_gt. exact H.
  - apply Z.ltb_lt. exact H2.
  - destruct (Ascii.eqb c ",") eqn:E; [|reflexivity].
    apply Ascii.eqb_eq in E. subst c. contradiction H3. reflexivity.
Qed.

(** One alphabet character read by the loop. *)
Lemma a2b_loop_alphabet (c : ascii) (rest : string)
    (quad_pos leftchar pads : Z) (bin_data : bytes) :
  is_alphabet c = true ->
  a2b_loop (String c rest) quad_pos leftchar pads bin_data =
  match quad_pos with
  | 0 => a2b_loop rest 1 (table_a2b_base64 (ord c)) 0 bin_data
  | 1 =>
      a2b_loop rest 2 (Z.land (table_a2b_base64 (ord c)) 15) 0
        (bin_data ++ [uchar (Z.lor (Z.shiftl leftchar 2)
                         (Z.shiftr (table_a2b_base64 (ord c)) 4))])%list
  | 2 =>
      a2b_loop rest 3 (Z.land (table_a2b_base64 (ord c)) 3) 0
        (bin_data ++ [uchar (Z.lor (Z.shiftl leftchar 4)
                         (Z.shiftr (table_a2b_base64 (ord c)) 2))])%list
  | _ =>
      a2b_loop rest 0 0 0
        (bin_data ++ [uchar (Z.lor (Z.shiftl leftchar 6)
                         (table_a2b_base64 (ord c)))])%list
  end.
Proof.
  intros H. destruct (is_alphabet_facts c H) as (Hpad & Htab & _).
  cbn [a2b_loop]. cbv zeta. rewrite Hpad, Htab. reflexivity.
Qed.

(** A character that is neither in the alphabet nor the pad is skipped. *)
Lemma a2b_loop_skip (c : ascii) (rest : string)
    (quad_pos leftchar pads : Z) (bin_data : bytes) :
  is_alphabet c = false ->
  (ord c =? BASE64_PAD) = false ->
  a2b_loop (String c rest) quad_pos leftchar pads bin_data =
  a2b_loop rest quad_pos leftchar pads bin_data.
Proof.
  intros H Hpad. unfold is_alphabet in H. apply Z.ltb_ge in H.
  cbn [a2b_loop]. cbv zeta. rewrite Hpad.
  destruct (64 <=? table_a2b_base64 (ord c)) eqn:E; [reflexivity|].
  apply Z.leb_gt in E. lia.
Qed.

Lemma a2b_loop_discard (s : string) :
  forall quad_pos leftchar pads bin_data,
    a2b_loop s quad_pos leftchar pads bin_data =
    a2b_loop (discard_non_alphabet s) quad_pos leftchar pads bin_data.
Proof.
  induction s as [|c s IH]; intros quad_pos leftchar pads bin_data;
    [reflexivity|].
  cbn [discard_non_alphabet].
  destruct (is_alphabet c) eqn:Ha; cbn [orb].
  - rewrite !a2b_loop_alphabet by exact Ha.
    destruct quad_pos as [|[[]|[]|]|]; apply IH.
  - destruct (ord c =? BASE64_PAD) eqn:Hp.
    + assert (Hc : c = "="%char).
      { apply Z.eqb_eq in Hp. unfold ord, BASE64_PAD in Hp.
        rewrite <- (ascii_N_embedding c).
        replace (N_of_ascii c) with 61%N by lia. reflexivity. }
      subst c. rewrite !a2b_loop_pad.
      repeat match goal with
             | |- context [if ?b then _ else _] => destruct b
             end; auto.
    + rewrite a2b_loop_skip by assumption. apply IH.
Qed.

Lemma all_ascii_discard (s : string) :
  all_ascii s = true -> all_ascii (discard_non_alphabet s) = true.
Proof.
  induction s as [|c s IH]; [reflexivity|].
  cbn [all_ascii discard_non_alphabet]. intros H.
  apply andb_prop in H. destruct H as [Hc Hs].
  destruct (is_alphabet c || (ord c =? BASE64_PAD)); [|auto].
  cbn [all_ascii]. rewrite Hc, IH by exact Hs. reflexivity.
Qed.

(** [b64decode] of an ASCII string is [b64decode] of its alphabet and
    pad characters. *)
Lemma b64decode_discard (s : string) :
  all_ascii s = true ->
  b64decode s = b64decode (discard_non_alphabet s).
Proof.
  intros H. unfold b64decode, a2b_base64.
  rewrite H, (all_ascii_discard s H). apply a2b_loop_discard.
Qed.

Lemma all_ascii_app (s t : string) :
  all_ascii (s +:+ t) = all_ascii s && all_ascii t.
Proof.
  induction s as [|c s IH]; [reflexivity|].
  change (all_ascii (String c s +:+ t)) with (is_ascii c && all_ascii (s +:+ t)).
  cbn [all_ascii]. rewrite IH, andb_assoc. reflexivity.
Qed.

Lemma alphabet_only_ascii (s : string) :
  alphabet_only s = true -> all_ascii s = true.
Proof.
  induction s as [|c s IH]; [reflexivity|].
  cbn [alphabet_only all_ascii]. intros H.
  apply andb_prop in H. destruct H as [Hc Hs].
  destruct (is_alphabet_facts c Hc) as (_ & _ & Ha & _).
  rewrite Ha, IH by exact Hs. reflexivity.
Qed.

Lemma alphabet_only_no_comma (s : string) :
  alphabet_only s = true -> count_char "," s = 0%nat.
Proof.
  induction s as [|c s IH]; [reflexivity|].
  cbn [alphabet_only count_char]. intros H.
  apply andb_prop in H. destruct H as [Hc Hs].
  destruct (is_alphabet_facts c Hc) as (_ & _ & _ & Hn).
  rewrite Hn. auto.
Qed.

Lemma string_ind4 (P : string -> Prop) :
  P EmptyString ->
  (forall a, P (String a EmptyString)) ->
  (forall a b, P (String a (String b EmptyString))) ->
  (forall a b c, P (String a (String b (String c EmptyString)))) ->
  (forall a b c d s, P s -> P (String a (String b (String c (String d s))))) ->
  forall s, P s.
Proof.
  intros H0 H1 H2 H3 H4 s.
  assert (H : P s /\ (forall a, P (String a s))
              /\ (forall a b, P (String a (String b s)))
              /\ (forall a b c, P (String a (String b (String c s))))).
  { induction s as [|x s IH].
    - auto.
    - destruct IH as (I0 & I1 & I2 & I3). auto. }
  apply H.
Qed.

(** A run of alphabet characters: whole quads are decoded, three bytes
    each; one leftover character, or two or three without padding, is
    an error. *)
Lemma a2b_loop_alphabet_only (s : string) :
  alphabet_only s = true ->
  forall out,
  exists bs,
    length bs = (3 * (String.length s / 4))%nat
    /\ a2b_loop s 0 0 0 out =
       match (String.length s mod 4)%nat with
       | 0%nat => Ret (out ++ bs)%list
       | 1%nat => Raise (Error_one_extra (length (out ++ bs)%list))
       | _ => Raise Error_padding
       end.
Proof.
  induction s as [|a|a b|a b c|a b c d s IH] using string_ind4;
    cbn [alphabet_only]; intros H out.
  - exists []. rewrite app_nil_r. split; reflexivity.
  - apply andb_prop in H. destruct H as [Ha _].
    exists []. rewrite app_nil_r. split; [reflexivity|].
    rewrite a2b_loop_alphabet by exact Ha. reflexivity.
  - apply andb_prop in H. destruct H as [Ha H].
    apply andb_prop in H. destruct H as [Hb _].
    exists []. split; [reflexivity|].
    rewrite a2b_loop_alphabet by exact Ha.
    rewrite a2b_loop_alphabet by exact Hb. reflexivity.
  - apply andb_prop in H. destruct H as [Ha H].
    apply andb_prop in H. destruct H as [Hb H].
    apply andb_prop in H. destruct H as [Hc _].
    exists []. split; [reflexivity|].
    rewrite a2b_loop_alphabet by exact Ha.
    rewrite a2b_loop_alphabet by exact Hb.
    rewrite a2b_loop_alphabet by exact Hc. reflexivity.
  - apply andb_prop in H. destruct H as [Ha H].
    apply andb_prop in H. destruct H as [Hb H].
    apply andb_prop in H. destruct H as [Hc H].
    apply andb_prop in H. destruct H as [Hd Hs].
    rewrite a2b_loop_alphabet by exact Ha.
    rewrite a2b_loop_alphabet by exact Hb.
    rewrite a2b_loop_alphabet by exact Hc.
    rewrite a2b_loop_alphabet by exact Hd.
    cbv iota.
    match goal with
    | |- context [a2b_loop s 0 0 0 ?o] =>
        destruct (IH Hs o) as (bs & Hlen & Heq)
    end.
    rewrite Heq. eexists (_ :: _ :: _ :: bs).
    assert (Hdiv : (String.length (String a (String b (String c (String d s)))) / 4
                    = S (String.length s / 4))%nat).
    { change (String.length (String a (String b (String c (String d s)))))
        with (1 * 4 + String.length s)%nat.
      rewrite Nat.div_add_l by discriminate. reflexivity. }
    assert (Hmod : (String.length (String a (String b (String c (String d s)))) mod 4
                    = String.length s mod 4)%nat).
    { change (String.length (String a (String b (String c (String d s)))))
        with (1 * 4 + String.length s)%nat.
      rewrite Nat.add_comm, Nat.Div0.mod_add. reflexivity. }
    rewrite Hdiv, Hmod. split.
    + cbn [length]. lia.
    + rewrite <- !app_assoc. reflexivity.
Qed.

(** Without any alphabet character nothing is decoded: pads met at the
    start of a quad are passed over like any other stray character. *)
Lemma a2b_loop_no_alphabet (s : string) :
  no_alphabet s = true ->
  forall leftchar pads out, a2b_loop s 0 leftchar pads out = Ret out.
Proof.
  induction s as [|c s IH]; intros H leftchar pads out; [reflexivity|].
  cbn [no_alphabet] in H. apply andb_prop in H. destruct H as [Hc Hs].
  apply negb_true_iff in Hc.
  destruct (ord c =? BASE64_PAD) eqn:Hp.
  - cbn [a2b_loop]. cbv zeta. rewrite Hp. cbn. apply IH. exact Hs.
  - rewrite a2b_loop_skip by assumption. apply IH. exact Hs.
Qed.

(** Once the padding has completed the last quad, the loop stops:
    whatever follows is not read. *)
Lemma a2b_loop_b64encode_tail (bin : bytes) :
  (length bin mod 3 <> 0)%nat ->
  forall tail out,
    a2b_loop (b64encode bin +:+ tail) 0 0 0 out = Ret (out ++ bin)%list.
Proof.
  induction bin as [|a|a b|a b c l IH] using bytes_ind3; intros Hlen tail out.
  - contradiction Hlen. reflexivity.
  - destruct (pair_facts a x00) as (Hs0 & _ & Hs1 & _ & Hb0 & _).
    cbv zeta in *.
    change (b64encode [a] +:+ tail) with
      (String (table_b2a_base64 (Z.shiftr (byteZ a) 2))
      (String (table_b2a_base64 (Z.shiftl (Z.land (byteZ a) 3) 4))
      (String "="%char (String "="%char tail)))).
    change (Z.shiftr (byteZ x00) 4) with 0 in *. rewrite Z.lor_0_r in *.
    rewrite a2b_loop_sextet by assumption.
    rewrite a2b_loop_sextet by assumption.
    rewrite !a2b_loop_pad. simpl. rewrite Hb0. reflexivity.
  - destruct (pair_facts a b) as (Hs0 & _ & Hs1 & _ & Hb0 & Hb1 & _).
    destruct (pair_facts b x00) as (_ & _ & _ & Hs2 & _ & _ & Hsh & _).
    cbv zeta in *.
    change (b64encode [a; b] +:+ tail) with
      (String (table_b2a_base64 (Z.shiftr (byteZ a) 2))
      (String (table_b2a_base64
                 (Z.lor (Z.shiftl (Z.land (byteZ a) 3) 4) (Z.shiftr (byteZ b) 4)))
      (String (table_b2a_base64 (Z.shiftl (Z.land (byteZ b) 15) 2))
      (String "="%char tail)))).
    change (Z.shiftr (byteZ x00) 6) with 0 in *. rewrite Z.lor_0_r in *.
    rewrite a2b_loop_sextet by assumption.
    rewrite a2b_loop_sextet by assumption.
    rewrite a2b_loop_sextet by assumption.
    rewrite a2b_loop_pad. simpl.
    rewrite Hsh, Hb0, Hb1, <- app_assoc. reflexivity.
  - destruct (pair_facts a b) as (Hs0 & _ & Hs1 & _ & Hb0 & Hb1 & _).
    destruct (pair_facts b c) as (_ & Hs3 & _ & Hs2 & _ & _ & Hsh & Hb2).
    destruct (pair_facts c x00) as (_ & Hs3' & _).
    cbv zeta in *.
    change (b64encode (a :: b :: c :: l) +:+ tail) with
      (String (table_b2a_base64 (Z.shiftr (byteZ a) 2))
      (String (table_b2a_base64
                 (Z.lor (Z.shiftl (Z.land (byteZ a) 3) 4) (Z.shiftr (byteZ b) 4)))
      (String (table_b2a_base64
                 (Z.lor (Z.shiftl (Z.land (byteZ b) 15) 2) (Z.shiftr (byteZ c) 6)))
      (String (table_b2a_base64 (Z.land (byteZ c) 63))
      (b64encode l +:+ tail))))).
    rewrite a2b_loop_sextet by assumption.
    rewrite a2b_loop_sextet by assumption.
    rewrite a2b_loop_sextet by assumption.
    rewrite a2b_loop_sextet by assumption.
    cbv iota.
    assert (Hl : (length l mod 3 <> 0)%nat).
    { change (length (a :: b :: c :: l)) with (1 * 3 + length l)%nat in Hlen.
      rewrite Nat.add_comm, Nat.Div0.mod_add in Hlen. exact Hlen. }
    rewrite Hsh, Hb0, Hb1, Hb2, IH, <- !app_assoc by exact Hl. reflexivity.
Qed.




End Base64_lenient.

Lemma count_comma_discard (s : string) :
  count_char "," s = 0%nat -> count_char "," (discard_non_alphabet s) = 0%nat.
Proof.
  induction s as [|c s IH]; [reflexivity|].
  cbn [count_char discard_non_alphabet].
  destruct (Ascii.eqb c ",") eqn:E; [discriminate|]. intros H.
  destruct (base64.is_alphabet c || (ord c =? binascii.BASE64_PAD)); [|auto].
  cbn [count_char]. rewrite E. auto.
Qed.

Lemma before_app_no_sep (sep : ascii) (s t : string) :
  count_char sep s = 0%nat -> before sep (s +:+ t) = s +:+ before sep t.
Proof.
  induction s as [|x s IH]; [reflexivity|].
  change (String x s +:+ t) with (String x (s +:+ t)).
  change (String x s +:+ before sep t) with (String x (s +:+ before sep t)).
  cbn [count_char before].
  destruct (Ascii.eqb x sep); [discriminate|].
  intros H. rewrite IH by exact H. reflexivity.
Qed.

Lemma all_ascii_before (sep : ascii) (s : string) :
  base64.all_ascii s = true -> base64.all_ascii (before sep s) = true.
Proof.
  induction s as [|x s IH]; [reflexivity|].
  cbn [base64.all_ascii before]. intros H.
  apply andb_prop in H. destruct H as [Hx Hs].
  destruct (Ascii.eqb x sep); [reflexivity|].
  cbn [base64.all_ascii]. rewrite Hx, IH by exact Hs. reflexivity.
Qed.

(** ** More on the handler: bodies, prefixes and payloads it accepts *)

Section Handler_edges.

Variable Image : Type.
Variable Image_open : BytesIO -> outcome Image.
Variable generate_content : list (Part Image) -> outcome GenerateContentResponse.

Local Abbreviation analizar_imagen := (analizar_imagen Image Image_open generate_content).
Local Abbreviation analizar_try := (analizar_try Image Image_open generate_content).
Local Abbreviation analizar := (analizar Image Image_open generate_content).
Local Abbreviation raises_in_try := (raises_in_try Image Image_open generate_content).

(** The handler's answer is settled by the outcome of the [try] block. *)
Lemma analizar_congr addr out request1 request2 :
  analizar_try addr request1 = analizar_try addr request2 ->
  analizar addr out request1 = analizar addr out request2.
Proof. intros H. unfold analizar. rewrite H. reflexivity. Qed.

(** The [try] block on an image made of a comma-free prefix, a comma
    and what follows. *)
Lemma analizar_try_after_prefix addr fields pre rest :
  count_char "," pre = 0%nat ->
  analizar_try addr (image_request fields (pre +:+ String "," rest)) =
  (let* image_bytes := base64.b64decode (before "," rest) in
   analizar_imagen addr image_bytes).
Proof.
  intros Hpre.
  rewrite analizar_try_image_request, image_base64_of_str.
  rewrite after_first_app by exact Hpre. reflexivity.
Qed.

Lemma analizar_try_segment addr fields pre seg :
  count_char "," pre = 0%nat ->
  count_char "," seg = 0%nat ->
  analizar_try addr (image_request fields (pre +:+ String "," seg)) =
  (let* image_bytes := base64.b64decode seg in
   analizar_imagen addr image_bytes).
Proof.
  intros Hpre Hseg. rewrite analizar_try_after_prefix by exact Hpre.
  rewrite before_no_sep by exact Hseg. reflexivity.
Qed.

(** X1. A body that is a JSON object without the key [image] is
    answered [500]; the error text is the key in quotes, as
    [str(KeyError('image'))] gives it. *)
Theorem analizar_missing_image_500 addr out request d :
  request_json request = Ret (PyDict d) ->
  d !! "image" = None ->
  analizar addr out request =
  (Ret (error_response "'image'"), print out (error_log "'image'")).
Proof.
  intros Hj Hd.
  apply (analizar_catches _ _ _ _ _ _ (mkExc KeyError "'image'")); [|reflexivity].
  unfold analizar_try. rewrite Hj. cbn [bind getitem]. rewrite Hd. reflexivity.
Qed.

(** X2. A body that parses to anything but a JSON object ([null], a
    number, a string, a list) is answered [500] with the [TypeError]
    that subscripting it raises. *)
Theorem analizar_body_not_object_500 addr out request data :
  request_json request = Ret data ->
  is_dict data = false ->
  exists msg,
    getitem data "image" = Raise (mkExc TypeError msg)
    /\ analizar addr out request =
       (Ret (error_response msg), print out (error_log msg)).
Proof.
  intros Hj Hd.
  assert (H : exists msg, getitem data "image" = Raise (mkExc TypeError msg)).
  { destruct data; try discriminate Hd; eexists; reflexivity. }
  destruct H as [msg Hg]. exists msg. split; [exact Hg|].
  apply (analizar_catches _ _ _ _ _ _ (mkExc TypeError msg)); [|reflexivity].
  unfold analizar_try. rewrite Hj. cbn [bind]. rewrite Hg. reflexivity.
Qed.

(** X3. An [image] that is not a string is answered [500]: the value
    has no [split] method, and the error text names its type. *)
Theorem analizar_image_not_string_500 addr out request d v :
  request_json request = Ret (PyDict d) ->
  d !! "image" = Some v ->
  is_str v = false ->
  analizar addr out request =
  (Ret (error_response ("'" +:+ type_name v +:+ "' object has no attribute 'split'")),
   print out (error_log ("'" +:+ type_name v +:+ "' object has no attribute 'split'"))).
Proof.
  intros Hj Hd Hv.
  apply (analizar_catches _ _ _ _ _ _
           (mkExc AttributeError
              ("'" +:+ type_name v +:+ "' object has no attribute 'split'")));
    [|reflexivity].
  rewrite (analizar_try_image _ _ _ _ _ _ _ Hj Hd).
  destruct v; try discriminate Hv; reflexivity.
Qed.

(** X4. Of a JSON object the handler reads the key [image] only: two
    bodies that agree on it (both lacking it included) get the same
    answer and the same console. *)
Theorem analizar_reads_image_only addr out request1 request2 d1 d2 :
  request_json request1 = Ret (PyDict d1) ->
  request_json request2 = Ret (PyDict d2) ->
  d1 !! "image" = d2 !! "image" ->
  analizar addr out request1 = analizar addr out request2.
Proof.
  intros H1 H2 Heq. apply analizar_congr. unfold analizar_try.
  rewrite H1, H2. cbn [bind getitem]. rewrite Heq. reflexivity.
Qed.

(** X5. What stands before the first comma is never looked at:
    neither [data:], nor the media type, nor [base64] is checked. *)
Theorem analizar_ignores_prefix addr out fields pre1 pre2 rest :
  count_char "," pre1 = 0%nat ->
  count_char "," pre2 = 0%nat ->
  analizar addr out (image_request fields (pre1 +:+ String "," rest)) =
  analizar addr out (image_request fields (pre2 +:+ String "," rest)).
Proof.
  intros H1 H2. apply analizar_congr.
  rewrite !analizar_try_after_prefix by assumption. reflexivity.
Qed.

(** X6. Within the payload, the text between the first comma and the
    next one (a comma is what ends it), ASCII characters that are
    neither in the alphabet nor the pad (spaces, line breaks, other
    punctuation) change nothing: the answer is that for the payload
    without them. *)
Theorem analizar_ignores_stray_characters addr out fields pre rest :
  count_char "," pre = 0%nat ->
  base64.all_ascii (before "," rest) = true ->
  analizar addr out (image_request fields (pre +:+ String "," rest)) =
  analizar addr out
    (image_request fields
       (pre +:+ String "," (discard_non_alphabet (before "," rest)))).
Proof.
  intros Hpre Hascii. apply analizar_congr.
  rewrite analizar_try_after_prefix by exact Hpre.
  rewrite analizar_try_segment
    by auto using count_comma_discard, count_char_before.
  rewrite (b64decode_discard _ Hascii). reflexivity.
Qed.

(** X7. A payload of alphabet characters whose number is not a
    multiple of 4 (padding left off) is refused by the decoder with a
    [binascii.Error], and the request is answered [500]. *)
Theorem analizar_unpadded_500 addr out fields pre seg :
  count_char "," pre = 0%nat ->
  alphabet_only seg = true ->
  (String.length seg mod 4 <> 0)%nat ->
  exists msg,
    base64.b64decode seg = Raise (mkExc binascii_Error msg)
    /\ analizar addr out (image_request fields (pre +:+ String "," seg)) =
       (Ret (error_response msg), print out (error_log msg)).
Proof.
  intros Hpre Hseg Hlen.
  assert (H : exists msg, base64.b64decode seg = Raise (mkExc binascii_Error msg)).
  { unfold base64.b64decode, binascii.a2b_base64.
    rewrite (alphabet_only_ascii seg Hseg).
    destruct (a2b_loop_alphabet_only seg Hseg []) as (bs & _ & Heq).
    rewrite Heq.
    destruct (String.length seg mod 4)%nat as [|[|n]];
      [contradiction Hlen; reflexivity | |]; eexists; reflexivity. }
  destruct H as [msg Hdec]. exists msg. split; [exact Hdec|].
  apply (analizar_catches _ _ _ _ _ _ (mkExc binascii_Error msg)); [|reflexivity].
  rewrite analizar_try_segment by auto using alphabet_only_no_comma.
  rewrite Hdec. reflexivity.
Qed.

(** X8. A payload of alphabet characters whose number is a multiple
    of 4 is always decoded, to three bytes for every four characters,
    and the bytes go to [analizar_imagen]. *)
Theorem analizar_whole_quads_decoded addr fields pre seg :
  count_char "," pre = 0%nat ->
  alphabet_only seg = true ->
  (String.length seg mod 4 = 0)%nat ->
  exists image_bytes,
    length image_bytes = (3 * (String.length seg / 4))%nat
    /\ base64.b64decode seg = Ret image_bytes
    /\ analizar_try addr (image_request fields (pre +:+ String "," seg)) =
       analizar_imagen addr image_bytes.
Proof.
  intros Hpre Hseg Hlen.
  destruct (a2b_loop_alphabet_only seg Hseg []) as (bs & Hbs & Heq).
  rewrite Hlen in Heq. cbn [app] in Heq.
  assert (Hdec : base64.b64decode seg = Ret bs).
  { unfold base64.b64decode, binascii.a2b_base64.
    rewrite (alphabet_only_ascii seg Hseg). exact Heq. }
  exists bs. split; [exact Hbs|]. split; [exact Hdec|].
  rewrite analizar_try_segment by auto using alphabet_only_no_comma.
  rewrite Hdec. reflexivity.
Qed.

(** X9. After a padded encoding (of a number of bytes that is not a
    multiple of 3) the decoder reads no further: ASCII text appended
    to the payload changes nothing. *)
Theorem analizar_ignores_text_after_padding addr out fields pre imagen_bytes tail :
  count_char "," pre = 0%nat ->
  (length imagen_bytes mod 3 <> 0)%nat ->
  base64.all_ascii tail = true ->
  base64.b64decode (base64.b64encode imagen_bytes +:+ tail) = Ret imagen_bytes
  /\ analizar addr out
       (image_request fields
          (pre +:+ String "," (base64.b64encode imagen_bytes +:+ tail))) =
     analizar addr out
       (image_request fields (pre +:+ String "," (base64.b64encode imagen_bytes))).
Proof.
  intros Hpre Hlen Htail.
  assert (Hdec : base64.b64decode (base64.b64encode imagen_bytes +:+ tail)
                 = Ret imagen_bytes).
  { unfold base64.b64decode, binascii.a2b_base64.
    rewrite all_ascii_app, all_ascii_b64encode, Htail. cbn [andb].
    apply (a2b_loop_b64encode_tail imagen_bytes Hlen tail []). }
  split; [exact Hdec|].
  apply analizar_congr. rewrite !analizar_try_after_prefix by exact Hpre.
  rewrite (before_no_sep _ _ (count_comma_b64encode imagen_bytes)).
  rewrite b64decode_b64encode.
  rewrite (before_app_no_sep _ _ _ (count_comma_b64encode imagen_bytes)).
  unfold base64.b64decode, binascii.a2b_base64.
  rewrite all_ascii_app, all_ascii_b64encode, all_ascii_before by exact Htail.
  cbn [andb].
  rewrite (a2b_loop_b64encode_tail imagen_bytes Hlen _ []). reflexivity.
Qed.

(** X10. A payload in which no alphabet character occurs (the empty
    payload, pads only, punctuation) is not a decoding error: it
    decodes to no bytes at all, and [analizar_imagen] is called on the
    empty byte string. *)
Theorem analizar_no_alphabet_payload addr fields pre seg :
  count_char "," pre = 0%nat ->
  count_char "," seg = 0%nat ->
  base64.all_ascii seg = true ->
  no_alphabet seg = true ->
  base64.b64decode seg = Ret []
  /\ analizar_try addr (image_request fields (pre +:+ String "," seg)) =
     analizar_imagen addr [].
Proof.
  intros Hpre Hseg Hascii Hno.
  assert (Hdec : base64.b64decode seg = Ret []).
  { unfold base64.b64decode, binascii.a2b_base64. rewrite Hascii.
    apply a2b_loop_no_alphabet. exact Hno. }
  split; [exact Hdec|].
  rewrite analizar_try_segment by assumption. rewrite Hdec. reflexivity.
Qed.

(** X11. A [200] answer is never made up: when the handler returns
    one, the body was parsed, had an [image], the payload was decoded,
    [Image.open] gave an image, the model answered the prompt with that
    image, and the [descripcion] is the text of that answer; nothing
    was printed. *)
Theorem analizar_success_inversion addr out request r out' :
  analizar addr out request = (Ret r, out') ->
  status_code r = 200 ->
  exists data image_data image_base64 image_bytes img response descripcion,
    request_json request = Ret data
    /\ getitem data "image" = Ret image_data
    /\ image_base64_of image_data = Ret image_base64
    /\ base64.b64decode image_base64 = Ret image_bytes
    /\ Image_open (io_BytesIO addr image_bytes) = Ret img
    /\ generate_content [Text PROMPT; Img img] = Ret response
    /\ text response = Ret descripcion
    /\ r = success_response descripcion
    /\ out' = out.
Proof.
  unfold analizar. intros H Hcode.
  destruct (analizar_try addr request) as [descripcion|e] eqn:Htry.
  - inversion H; subst r out'; clear H.
    unfold analizar_try, analizar_imagen in Htry.
    destruct (request_json request) as [data|] eqn:Hj; [|discriminate Htry].
    cbn [bind] in Htry.
    destruct (getitem data "image") as [image_data|] eqn:Hi;
      [|discriminate Htry].
    cbn [bind] in Htry.
    destruct (image_base64_of image_data) as [image_base64|] eqn:Hs;
      [|discriminate Htry].
    cbn [bind] in Htry.
    destruct (base64.b64decode image_base64) as [image_bytes|] eqn:Hb;
      [|discriminate Htry].
    cbn [bind] in Htry.
    destruct (Image_open (io_BytesIO addr image_bytes)) as [img|] eqn:Ho;
      [|discriminate Htry].
    cbn [bind] in Htry.
    destruct (generate_content [Text PROMPT; Img img]) as [response|] eqn:Hg;
      [|discriminate Htry].
    cbn [bind] in Htry.
    exists data, image_data, image_base64, image_bytes, img, response, descripcion.
    repeat split; try reflexivity; assumption.
  - destruct (isinstance_Exception e).
    + inversion H; subst r out'. discriminate Hcode.
    + discriminate H.
Qed.

(** X12. The console and the response agree.  A [200] answer prints
    nothing; a [500] answer comes with exactly one call of [print],
    whose text is ["Error: "] followed by the text of its [error]
    field (several lines on the screen when that text has line
    breaks); an exception that passes through prints nothing.  What
    was printed before is never touched. *)
Theorem analizar_console addr out request :
  match analizar addr out request with
  | (Ret r, out') =>
      (status_code r = 200 /\ out' = out)
      \/ (exists msg,
            status_code r = 500
            /\ response_json r !! "error" = Some (PyStr msg)
            /\ out' = (out ++ ["Error: " +:+ msg])%list)
  | (Raise _, out') => out' = out
  end.
Proof.
  unfold analizar.
  destruct (analizar_try addr request) as [descripcion|e].
  - left. split; reflexivity.
  - destruct (isinstance_Exception e); [|reflexivity].
    right. exists (exc_str e). split; [reflexivity|]. split; [|reflexivity].
    unfold jsonify. cbn [response_json]. apply lookup_insert_eq.
Qed.

(** X13. An exception that is not an instance of [Exception]
    ([KeyboardInterrupt], [SystemExit], a cancellation), raised at any
    step, is not turned into a response: it leaves the handler, and
    nothing is printed. *)
Theorem analizar_BaseException_leaves addr out request e :
  raises_in_try addr request e ->
  isinstance_Exception e = false ->
  analizar addr out request = (Raise e, out).
Proof.
  intros H He. apply analizar_lets_through; [|exact He].
  apply raises_in_try_iff. exact H.
Qed.


End Handler_edges.

(** ** What the handler asks of the model *)

Section Model_frame.

Variable Image : Type.
Variable Image_open : BytesIO -> outcome Image.
Variables model1 model2 : list (Part Image) -> outcome GenerateContentResponse.

(** X14. The model is consulted with one kind of call only: the fixed
    prompt followed by the opened image.  Two models that agree on
    such calls give the same answer and the same console, whatever the
    request holds. *)
Theorem analizar_asks_prompt_and_image addr out request :
  (forall img, model1 [Text PROMPT; Img img] = model2 [Text PROMPT; Img img]) ->
  analizar Image Image_open model1 addr out request =
  analizar Image Image_open model2 addr out request.
Proof.
  intros H. unfold analizar.
  assert (Htry : analizar_try Image Image_open model1 addr request =
                 analizar_try Image Image_open model2 addr request).
  { unfold analizar_try, analizar_imagen.
    destruct (request_json request) as [data|]; [|reflexivity]. cbn [bind].
    destruct (getitem data "image") as [image_data|]; [|reflexivity]. cbn [bind].
    destruct (image_base64_of image_data) as [image_base64|]; [|reflexivity].
    cbn [bind].
    destruct (base64.b64decode image_base64) as [image_bytes|]; [|reflexivity].
    cbn [bind].
    destruct (Image_open (io_BytesIO addr image_bytes)) as [img|]; [|reflexivity].
    cbn [bind]. rewrite H. reflexivity. }
  rewrite Htry. reflexivity.
Qed.

End Model_frame.

(** ** The further theorems at concrete requests *)

Lemma analizar_missing_image_500_witness :
  run 140000%N [] (mkRequest (Ret (PyDict {[ "imagen" := PyStr png_url ]}))) =
  (Ret (error_response "'image'"), ["Error: 'image'"]).
Proof.
  apply (analizar_missing_image_500 bytes stub_Image_open (stub_model sonriendo)
           140000%N [] _ {[ "imagen" := PyStr png_url ]});
    vm_compute; reflexivity.
Defined.

Lemma analizar_body_not_object_500_witness :
  exists msg,
    getitem PyNone "image" = Raise (mkExc TypeError msg)
    /\ run 140000%N [] (mkRequest (Ret PyNone)) =
       (Ret (error_response msg), print [] (error_log msg)).
Proof.
  apply (analizar_body_not_object_500 bytes stub_Image_open (stub_model sonriendo)
           140000%N [] (mkRequest (Ret PyNone)) PyNone); reflexivity.
Defined.

Lemma analizar_image_not_string_500_witness :
  run 140000%N [] (mkRequest (Ret (PyDict {[ "image" := PyInt 7 ]}))) =
  (Ret (error_response "'int' object has no attribute 'split'"),
   ["Error: 'int' object has no attribute 'split'"]).
Proof.
  apply (analizar_image_not_string_500 bytes stub_Image_open (stub_model sonriendo)
           140000%N [] _ {[ "image" := PyInt 7 ]} (PyInt 7));
    vm_compute; reflexivity.
Defined.

Lemma analizar_reads_image_only_witness :
  run 140000%N []
    (mkRequest (Ret (PyDict {[ "image" := PyStr png_url; "lang" := PyStr "es" ]}))) =
  run 140000%N [] (mkRequest (Ret (PyDict {[ "image" := PyStr png_url ]}))).
Proof.
  apply (analizar_reads_image_only bytes stub_Image_open (stub_model sonriendo)
           140000%N [] _ _
           {[ "image" := PyStr png_url; "lang" := PyStr "es" ]}
           {[ "image" := PyStr png_url ]});
    vm_compute; reflexivity.
Defined.

Lemma analizar_ignores_prefix_witness :
  run 140000%N [] (image_request ∅ ("data:image/png;base64" +:+ String "," png1x1)) =
  run 140000%N [] (image_request ∅ ("" +:+ String "," png1x1)).
Proof.
  apply (analizar_ignores_prefix bytes stub_Image_open (stub_model sonriendo)
           140000%N [] ∅ "data:image/png;base64" "" png1x1); reflexivity.
Defined.

Lemma analizar_ignores_stray_characters_witness :
  run 140000%N []
    (image_request ∅
       ("data:image/png;base64" +:+ String "," (bang_payload +:+ ",extra"))) =
  run 140000%N []
    (image_request ∅
       ("data:image/png;base64" +:+
        String "," (discard_non_alphabet (before "," (bang_payload +:+ ",extra"))))).
Proof.
  apply (analizar_ignores_stray_characters bytes stub_Image_open
           (stub_model sonriendo) 140000%N [] ∅ "data:image/png;base64"
           (bang_payload +:+ ",extra")); vm_compute; reflexivity.
Defined.


Lemma analizar_unpadded_500_witness :
  exists msg,
    base64.b64decode "aGVsbG8" = Raise (mkExc binascii_Error msg)
    /\ run 140000%N [] (image_request ∅ ("data:text/plain;base64" +:+ String "," "aGVsbG8")) =
       (Ret (error_response msg), print [] (error_log msg)).
Proof.
  apply (analizar_unpadded_500 bytes stub_Image_open (stub_model sonriendo)
           140000%N [] ∅ "data:text/plain;base64" "aGVsbG8");
    vm_compute; first [reflexivity | lia].
Defined.

Lemma analizar_whole_quads_decoded_witness :
  exists image_bytes,
    length image_bytes = (3 * (String.length "aGVsbG8h" / 4))%nat
    /\ base64.b64decode "aGVsbG8h" = Ret image_bytes
    /\ analizar_try bytes stub_Image_open (stub_model sonriendo) 140000%N
         (image_request ∅ ("data:text/plain;base64" +:+ String "," "aGVsbG8h")) =
       analizar_imagen bytes stub_Image_open (stub_model sonriendo) 140000%N
         image_bytes.
Proof.
  apply (analizar_whole_quads_decoded bytes stub_Image_open (stub_model sonriendo)
           140000%N ∅ "data:text/plain;base64" "aGVsbG8h");
    vm_compute; reflexivity.
Defined.

Lemma analizar_ignores_text_after_padding_witness :
  base64.b64decode (base64.b64encode hello_bytes +:+ "trailing,text") = Ret hello_bytes
  /\ run 140000%N []
       (image_request ∅
          ("data:text/plain;base64" +:+
           String "," (base64.b64encode hello_bytes +:+ "trailing,text"))) =
     run 140000%N []
       (image_request ∅
          ("data:text/plain;base64" +:+ String "," (base64.b64encode hello_bytes))).
Proof.
  apply (analizar_ignores_text_after_padding bytes stub_Image_open
           (stub_model sonriendo) 140000%N [] ∅ "data:text/plain;base64"
           hello_bytes "trailing,text");
    vm_compute; first [reflexivity | lia].
Defined.

Lemma analizar_no_alphabet_payload_witness :
  base64.b64decode "====" = Ret []
  /\ analizar_try bytes stub_Image_open (stub_model sonriendo) 140000%N
       (image_request ∅ ("data:image/png;base64" +:+ String "," "====")) =
     analizar_imagen bytes stub_Image_open (stub_model sonriendo) 140000%N [].
Proof.
  apply (analizar_no_alphabet_payload bytes stub_Image_open (stub_model sonriendo)
           140000%N ∅ "data:image/png;base64" "===="); reflexivity.
Defined.

Lemma analizar_success_inversion_witness :
  exists data image_data image_base64 image_bytes img response descripcion,
    request_json (image_request ∅ png_url) = Ret data
    /\ getitem data "image" = Ret image_data
    /\ image_base64_of image_data = Ret image_base64
    /\ base64.b64decode image_base64 = Ret image_bytes
    /\ stub_Image_open (io_BytesIO 140000%N image_bytes) = Ret img
    /\ stub_model sonriendo [Text PROMPT; Img img] = Ret response
    /\ text response = Ret descripcion
    /\ success_response sonriendo = success_response descripcion
    /\ @nil string = [].
Proof.
  apply (analizar_success_inversion bytes stub_Image_open (stub_model sonriendo)
           140000%N [] (image_request ∅ png_url) (success_response sonriendo) []);
    vm_compute; reflexivity.
Defined.

Lemma analizar_BaseException_leaves_witness :
  analizar bytes stub_Image_open interrupted_model 140000%N []
    (image_request ∅ png_url) =
  (Raise (mkExc KeyboardInterrupt ""), []).
Proof.
  apply (analizar_BaseException_leaves bytes stub_Image_open interrupted_model
           140000%N [] (image_request ∅ png_url) (mkExc KeyboardInterrupt "")).
  - apply (raises_generate_content bytes stub_Image_open interrupted_model _ _ _
             (PyDict (<["image" := PyStr png_url]> ∅)) (PyStr png_url)
             png1x1 png1x1_bytes png1x1_bytes);
      vm_compute; reflexivity.
  - reflexivity.
Defined.

Lemma analizar_asks_prompt_and_image_witness :
  analizar bytes stub_Image_open (stub_model sonriendo) 140000%N []
    (image_request ∅ png_url) =
  analizar bytes stub_Image_open (two_part_model sonriendo) 140000%N []
    (image_request ∅ png_url).
Proof.
  apply (analizar_asks_prompt_and_image bytes stub_Image_open
           (stub_model sonriendo) (two_part_model sonriendo) 140000%N []
           (image_request ∅ png_url)).
  reflexivity.
Defined.
